(** * Analytics routes of the Retinal-AI MongoDB backend

    A shallow embedding of [backend/routes/analytics.js] together with the
    middleware of the server entry point it is mounted with
    ([authenticateToken], [requireRole], [broadcastUpdate]) and the Mongoose
    schemas it queries.

    Conventions of the embedding:
    - a JavaScript number is a binary64 float, [PrimFloat.float];
    - a [Date] is its time value, milliseconds since the epoch, in [Z];
    - an [ObjectId] is kept apart from a string: a query of a model method
      casts the strings it is given to the type of the schema path, and that
      cast throws on a string that is not a well-formed id; the stages of an
      aggregation pipeline are sent to the database as they are, where a
      string never equals an [ObjectId];
    - a schema path that may be null or missing is an [option];
    - a collection is the list of its documents in natural order;
    - the server's time zone is a parameter: the offset from UTC in force
      at an instant, and the offset a local time is read with;
    - a handler's [catch] branch, which answers 500, is reached by a failed
      cast and by nothing else: the database itself never fails;
    - a request reads the clock once: every [new Date()] of one handler
      run returns the same instant.

    Mongoose is taken as of version 8: an update is applied as a [$set]
    from which the keys that are [undefined] have been dropped, an upsert
    that inserts starts from the schema's defaults, and a string is cast to
    an [ObjectId] only when it is 24 hexadecimal digits.

    The routes embedded are the five of the file: [GET /overview],
    [GET /doctor/:doctorId?], [GET /ai-performance], [GET /patients] and
    [POST /ai-performance]. *)

From Stdlib Require Import ZArith Lia Bool.
From Stdlib Require Import Strings.String Strings.Ascii Numbers.DecimalString.
From Stdlib Require Import Floats.PrimFloat Floats.SpecFloat Floats.FloatOps.
From Stdlib Require Numbers.Cyclic.Int63.Uint63.
From Stdlib Require Import Sorting.Sorted Sorting.Permutation.
From stdpp Require Import base option list gmap strings.

Set Warnings "-inexact-float".
Local Open Scope string_scope.
Local Open Scope Z_scope.

(** ** JavaScript and BSON numbers *)

Module Num.

(** [$toString] of an integer, and JavaScript's [String(n)] for an integer
    [n]: the decimal digits, with a leading minus sign when negative. *)
Definition toString (n : Z) : string := NilZero.string_of_int (Z.to_int n).

(** A run of [n] zero digits. *)
Fixpoint zeros (n : nat) : string :=
  match n with
  | O => ""
  | S n' => String "0" (zeros n')
  end.

(** A document count as a number. *)
Definition of_count (n : nat) : float :=
  PrimFloat.of_uint63 (Uint63.of_Z (Z.of_nat n)).

(** The BSON comparison order on doubles, which the aggregation operators
    [$lt], [$gte], [$min], [$max] use: the IEEE order of the decoded
    values, made total by placing NaN below every other number and equal
    to itself. *)
Definition compare_decoded (a b : spec_float) : comparison :=
  match SFcompare a b with
  | Some c => c
  | None =>
      match a, b with
      | S754_nan, S754_nan => Eq
      | S754_nan, _ => Lt
      | _, _ => Gt
      end
  end.

Definition compare (x y : float) : comparison :=
  compare_decoded (Prim2SF x) (Prim2SF y).

(** [{ $lt: [x, y] }] *)
Definition lt (x y : float) : bool :=
  match compare x y with Lt => true | _ => false end.

(** [{ $gte: [x, y] }] *)
Definition gte (x y : float) : bool :=
  match compare x y with Lt => false | _ => true end.

(** [$min] and [$max] over the numbers of a group, [null] when there is
    none. *)
Definition min_of (xs : list float) : option float :=
  match xs with
  | [] => None
  | x :: xs' => Some (fold_left (fun m y => if lt y m then y else m) xs' x)
  end.

Definition max_of (xs : list float) : option float :=
  match xs with
  | [] => None
  | x :: xs' => Some (fold_left (fun m y => if lt m y then y else m) xs' x)
  end.

(** [$sum] over the numbers of a group, added in document order. *)
Definition sum (xs : list float) : float := fold_left PrimFloat.add xs 0%float.

(** [$avg] over the numbers of a group: their sum divided by how many
    there are, and [null] when there is none. *)
Definition avg (xs : list float) : option float :=
  match xs with
  | [] => None
  | _ => Some (sum xs / of_count (length xs))%float
  end.

(** JavaScript truthiness of a number: [0], [-0] and [NaN] are falsy. *)
Definition truthy (x : float) : bool := negb (PrimFloat.is_zero x || PrimFloat.is_nan x).

(** [average || 0] where [average] is a number or [null]. *)
Definition or_zero (average : option float) : float :=
  match average with
  | Some x => if truthy x then x else 0%float
  | None => 0%float
  end.

(** [parseFloat] applied to a number converts it to a string and parses
    that string back, which returns the number it started from. *)
Definition parseFloat (x : float) : float := x.

(** What [Number.prototype.toFixed] returns: the digits it builds itself,
    or, at magnitude 10^21 and above, the exponent notation of
    [Number::toString], which is left unrendered. *)
Inductive text :=
| Digits (s : string)
| ToString (x : float).

(** The integer [n] for which [n / 10^f - m * 2^e] is as close to zero as
    possible, the larger one when there are two. *)
Definition nearest_scaled (f : nat) (m : positive) (e : Z) : Z :=
  let scale := 10 ^ Z.of_nat f in
  if 0 <=? e then Z.pos m * 2 ^ e * scale
  else (2 * Z.pos m * scale + 2 ^ (- e)) / 2 ^ (- e + 1).

(** Steps 8 to 10 of [toFixed]: the digits of [n], padded on the left with
    zeros to [f + 1] characters, with a point before the last [f]. *)
Definition place_point (f : nat) (n : Z) : string :=
  let m := toString n in
  let m :=
    if (String.length m <=? f)%nat
    then zeros (f + 1 - String.length m) ++ m
    else m in
  let k := String.length m in
  if (f =? 0)%nat then m
  else substring 0 (k - f) m ++ "." ++ substring (k - f) f m.

Definition toFixed (fractionDigits : nat) (x : float) : text :=
  match Prim2SF x with
  | S754_nan => Digits "NaN"
  | S754_infinity s => Digits (if s then "-Infinity" else "Infinity")
  | S754_zero _ => Digits (place_point fractionDigits 0)
  | S754_finite s m e =>
      if (0 <=? e) && (10 ^ 21 <=? Z.pos m * 2 ^ e) then ToString x
      else
        let digits := place_point fractionDigits (nearest_scaled fractionDigits m e) in
        Digits (if s then "-" ++ digits else digits)
  end.

End Num.

(** ** Dates *)

Module Date.

Definition msPerDay : Z := 86400000.

(** Proleptic Gregorian calendar: day number (days since 1970-01-01) to
    year, month (1 to 12) and day of month. *)
Definition civil_from_days (z : Z) : Z * Z * Z :=
  let z := z + 719468 in
  let era := z / 146097 in
  let doe := z - era * 146097 in
  let yoe := (doe - doe / 1460 + doe / 36524 - doe / 146096) / 365 in
  let doy := doe - (365 * yoe + yoe / 4 - yoe / 100) in
  let mp := (5 * doy + 2) / 153 in
  let d := doy - (153 * mp + 2) / 5 + 1 in
  let m := if mp <? 10 then mp + 3 else mp - 9 in
  let y := yoe + era * 400 in
  (if m <=? 2 then y + 1 else y, m, d).

(** The day number of day [d] of month [m] of year [y]; a [d] beyond the
    end of the month runs on into the following days, as in [MakeDay]. *)
Definition days_from_civil (y m d : Z) : Z :=
  let y := if m <=? 2 then y - 1 else y in
  let era := y / 400 in
  let yoe := y - era * 400 in
  let doy := (153 * (if 2 <? m then m - 3 else m + 9) + 2) / 5 + d - 1 in
  let doe := yoe * 365 + yoe / 4 - yoe / 100 + doy in
  era * 146097 + doe - 719468.

(** [{ $year: t }] and [{ $month: t }], both in UTC. *)
Definition year (t : Z) : Z := fst (fst (civil_from_days (t / msPerDay))).
Definition month (t : Z) : Z := snd (fst (civil_from_days (t / msPerDay))).
Definition dayOfMonth (t : Z) : Z := snd (civil_from_days (t / msPerDay)).

(** Decimal digits of [n] padded on the left with zeros to [width]. *)
Definition padded (width : nat) (n : Z) : string :=
  let s := Num.toString n in
  Num.zeros (width - String.length s) ++ s.

(** [{ $dateToString: { format: '%Y-%m-%d', date: t } }] *)
Definition dateToString (t : Z) : string :=
  padded 4 (year t) ++ "-" ++ padded 2 (month t) ++ "-" ++ padded 2 (dayOfMonth t).

(** The server's time zone, in milliseconds east of UTC: [offsetAt t] is
    the offset in force at the instant [t] ([LocalTZA(t, true)]), and
    [offsetOf t] the offset the local time value [t] is read with
    ([LocalTZA(t, false)]). The two differ around a change of offset. *)
Record zone := { offsetAt : Z -> Z; offsetOf : Z -> Z }.

(** A zone whose offset never changes. *)
Definition fixed (offset : Z) : zone :=
  {| offsetAt := fun _ => offset; offsetOf := fun _ => offset |}.

(** The server clock: the instant of the request and the time zone. *)
Record clock := { now : Z; timeZone : zone }.

(** [LocalTime(t)] for the instant of the request. *)
Definition localTime (c : clock) : Z := now c + offsetAt (timeZone c) (now c).

(** [UTC(t)]: the instant of a local time value. *)
Definition utc (z : zone) (t : Z) : Z := t - offsetOf z t.

(** [new Date().setHours(0, 0, 0, 0)]: the first millisecond of the
    current local day. *)
Definition startOfDay (c : clock) : Z :=
  utc (timeZone c) (localTime c / msPerDay * msPerDay).

(** [new Date().setHours(23, 59, 59, 999)]: the last millisecond of the
    current local day. *)
Definition endOfDay (c : clock) : Z :=
  utc (timeZone c) (localTime c / msPerDay * msPerDay + (msPerDay - 1)).

(** [d = new Date(); d.setDate(d.getDate() - 30)]: the same local time of
    day, thirty local days back. *)
Definition thirtyDaysAgo (c : clock) : Z :=
  utc (timeZone c) (localTime c - 30 * msPerDay).

(** [d = new Date(); d.setMonth(d.getMonth() - 12)]: the same local day of
    month and time of day, twelve months back. *)
Definition twelveMonthsAgo (c : clock) : Z :=
  let local := localTime c in
  let '(y, m, d) := civil_from_days (local / msPerDay) in
  utc (timeZone c) (days_from_civil (y - 1) m d * msPerDay + local mod msPerDay).

End Date.

(** ** Object ids and BSON values *)

Module ObjectId.

Definition isLowerHex (c : ascii) : bool :=
  let n := nat_of_ascii c in
  ((48 <=? n) && (n <=? 57) || (97 <=? n) && (n <=? 102))%nat.

Fixpoint allLowerHex (s : string) : bool :=
  match s with
  | EmptyString => true
  | String c s' => isLowerHex c && allLowerHex s'
  end.

(** The strings [ObjectId.prototype.toString] returns: 24 hexadecimal
    digits, the letters in lower case. *)
Definition wellFormed (s : string) : bool :=
  (String.length s =? 24)%nat && allLowerHex s.

(** An [ObjectId], held as the string its [toString()] returns. *)
Record t := { hex : string; wf : wellFormed hex = true }.

Definition toString (id : t) : string := hex id.

(** The letters ['A'] to ['F'] in lower case, every other character as it
    is. *)
Definition lower (c : ascii) : ascii :=
  let n := nat_of_ascii c in
  if ((65 <=? n) && (n <=? 70))%nat then ascii_of_nat (n + 32) else c.

Fixpoint lowerCase (s : string) : string :=
  match s with
  | EmptyString => EmptyString
  | String c s' => String (lower c) (lowerCase s')
  end.

(** The cast a query applies to a string on a path of type [ObjectId]:
    a string of 24 hexadecimal digits, in either case, names an id; on any
    other string the cast throws, which is [None] here. *)
Definition cast (s : string) : option t :=
  match bool_dec (wellFormed (lowerCase s)) true with
  | left H => Some {| hex := lowerCase s; wf := H |}
  | right _ => None
  end.

Definition eqb (a b : t) : bool := String.eqb (hex a) (hex b).

(** The id a well-formed string is the [toString()] of. *)
Definition ofString (s : string) : option t :=
  match bool_dec (wellFormed s) true with
  | left H => Some {| hex := s; wf := H |}
  | right _ => None
  end.

#[global] Instance eq_dec : EqDecision t.
Proof.
  intros [h1 w1] [h2 w2]. destruct (string_dec h1 h2) as [Heq|Hne].
  - left. subst h2. f_equal. apply (Eqdep_dec.UIP_dec bool_dec).
  - right. intros [= ?]. contradiction.
Defined.

#[global] Instance countable : Countable t.
Proof.
  refine (inj_countable hex ofString _).
  intros [h w]. unfold ofString. cbn [hex].
  destruct (bool_dec (wellFormed h) true) as [H|H]; [|contradiction].
  do 2 f_equal. apply (Eqdep_dec.UIP_dec bool_dec).
Defined.

End ObjectId.

Module Bson.

(** The BSON values an id path and its operand in a filter can hold. *)
Inductive value :=
| Oid (id : ObjectId.t)
| Str (s : string)
| Null.

(** Equality as the database tests it in a filter: values of different
    types are never equal. *)
Definition eqb (a b : value) : bool :=
  match a, b with
  | Oid x, Oid y => ObjectId.eqb x y
  | Str x, Str y => String.eqb x y
  | Null, Null => true
  | _, _ => false
  end.

Definition ofId (id : option ObjectId.t) : value :=
  match id with
  | Some i => Oid i
  | None => Null
  end.

End Bson.

(** ** Collections: the Mongoose schemas read by the analytics routes *)

Module User.
Record doc := {
  _id : ObjectId.t;
  name : string;
  role : string;
  specialty : option string;
  license_number : option string
}.
End User.

Module Patient.
Record doc := {
  _id : ObjectId.t;
  user_id : option ObjectId.t;
  doctor_id : option ObjectId.t;
  medical_record_number : option string;
  first_name : string;
  last_name : string;
  date_of_birth : Z;
  gender : option string;
  created_at : Z
}.
End Patient.

Module RetinalAnalysis.
Record doc := {
  patient_id : ObjectId.t;
  doctor_id : ObjectId.t;
  confidence_score : option float;
  condition_detected : option string;
  severity_level : option string;
  voice_consultation_duration : option float;
  created_at : Z
}.
End RetinalAnalysis.

Module AIModelPerformance.
Record doc := {
  model_version : option string;
  accuracy_rate : option float;
  precision_rate : option float;
  recall_rate : option float;
  f1_score : option float;
  total_predictions : option float;
  correct_predictions : option float;
  evaluation_date : Z
}.
End AIModelPerformance.

Record Store := {
  users : list User.doc;
  patients : list Patient.doc;
  retinalanalyses : list RetinalAnalysis.doc;
  aimodelperformances : list AIModelPerformance.doc
}.

(** ** Aggregation stages *)

Section Stages.
Context {A : Type}.

(** [$group] on a key: the documents of each key that occurs, kept in
    document order. The groups come out in the order of the map's own
    listing, which stands for the order the database happens to emit. *)
Definition group_map `{Countable K} (key : A -> K) (docs : list A) : gmap K (list A) :=
  foldr (fun d acc => <[key d := d :: default [] (acc !! key d)]> acc) ∅ docs.

Definition group_by `{Countable K} (key : A -> K) (docs : list A) : list (K * list A) :=
  map_to_list (group_map key docs).

(** [{ $group: { _id: key, count: { $sum: 1 } } }] *)
Definition countBy `{Countable K} (key : A -> K) (docs : list A) : list (K * nat) :=
  map (fun g => (fst g, length (snd g))) (group_by key docs).

(** [$group] with [_id: null]: one group holding every input document, and
    no group at all for an empty input. *)
Definition group_all (docs : list A) : list (list A) :=
  match docs with
  | [] => []
  | _ => [docs]
  end.

(** [{ $sum: { $cond: [p, 1, 0] } }] *)
Definition sum_cond (p : A -> bool) (docs : list A) : nat :=
  fold_left (fun acc d => (acc + if p d then 1 else 0)%nat) docs O.

(** [$sort]: insertion of each document behind those that go strictly
    ahead of it, so documents that compare equal keep their input order. *)
Fixpoint insert_by (ahead : A -> A -> bool) (x : A) (l : list A) : list A :=
  match l with
  | [] => [x]
  | y :: l' => if ahead y x then y :: insert_by ahead x l' else x :: y :: l'
  end.

Definition sort_by (ahead : A -> A -> bool) (l : list A) : list A :=
  foldr (insert_by ahead) [] l.

(** [{ $sort: { key: -1 } }] on an integer key. *)
Definition descending (key : A -> Z) (y x : A) : bool := key x <? key y.

(** [{ $sort: { key: -1 } }] on a key that may be null; null sorts below
    every value. *)
Definition descending_opt (key : A -> option Z) (y x : A) : bool :=
  match key y, key x with
  | Some a, Some b => b <? a
  | Some _, None => true
  | None, _ => false
  end.

End Stages.

(** The sort key [count] of a counted group. *)
Definition byCount {K : Type} (g : K * nat) : Z := Z.of_nat (snd g).

(** [{ $group: { _id: key, count: { $sum: 1 } } }, { $sort: { count: -1 } },
     { $project: ... }]: the three stages every histogram of the routes
    ends with. *)
Definition histogram {A E : Type} `{Countable K} (project : K * nat -> E)
    (key : A -> K) (docs : list A) : list E :=
  map project (sort_by (descending byCount) (countBy key docs)).

(** ** Ages, as the patient analytics compute them *)

Module Age.

(** An integer (a BSON long, here the difference of two dates) as a double,
    rounded to nearest when it has more than 53 significant bits. *)
Definition ofInteger (z : Z) : float :=
  SF2Prim (binary_normalize prec emax z 0 false).

(** [365.25 * 24 * 60 * 60 * 1000], evaluated by JavaScript when the
    pipeline is built. *)
Definition msPerYear : float := (365.25 * 24 * 60 * 60 * 1000)%float.

(** [$floor] *)
Definition floor (x : float) : float :=
  match Prim2SF x with
  | S754_finite s m e =>
      if 0 <=? e then x
      else ofInteger ((if s then Z.neg m else Z.pos m) / 2 ^ (- e))
  | _ => x
  end.

(** [{ $floor: { $divide: [{ $subtract: [new Date(), '$date_of_birth'] },
                           365.25 * 24 * 60 * 60 * 1000] } }] *)
Definition ofBirth (now date_of_birth : Z) : float :=
  floor (ofInteger (now - date_of_birth) / msPerYear).

(** [{ $lte: [x, y] }] in the BSON order. *)
Definition lte (x y : float) : bool :=
  match Num.compare x y with Gt => false | _ => true end.

(** The [$switch] of the age histogram: the first branch whose case holds,
    and ['Over 70'] when none does. *)
Definition group (age : float) : string :=
  if Num.lt age 18 then "Under 18"
  else if Num.gte age 18 && lte age 30 then "18-30"
  else if Num.gte age 31 && lte age 50 then "31-50"
  else if Num.gte age 51 && lte age 70 then "51-70"
  else "Over 70".

End Age.

(** ** Middleware of the server entry point *)

Module Jwt.
(** The payload signed at login and restored by [jwt.verify]. *)
Record payload := { userId : ObjectId.t; email : string; role : string }.

(** [req.user.userId] as the handlers read it: the id had been serialised
    into the token, and comes back as a string. *)
Definition userIdString (user : payload) : string := ObjectId.toString (userId user).
End Jwt.

(** The [Authorization] header as [authenticateToken] sees it. *)
Inductive authorization :=
| NoToken
| InvalidToken
| Bearer (user : Jwt.payload).

(** Keys of the objects the routes send. *)

Module ConditionCount.
Record t := { condition_detected : option string; count : nat }.
End ConditionCount.

Module SeverityCount.
Record t := { severity_level : option string; count : nat }.
End SeverityCount.

Module MonthCount.
Record t := { month : string; count : nat }.
End MonthCount.

Module DayCount.
Record t := { date : string; count : nat }.
End DayCount.

Module TopDoctor.
Record t := {
  doctor_name : string;
  specialty : option string;
  analysis_count : nat
}.
End TopDoctor.

Module ModelSummary.
Record t := {
  model_version : option string;
  avg_accuracy : option float;
  total_predictions : float;
  last_evaluation : option Z
}.
End ModelSummary.

Module Overview.
Record analytics := {
  totalPatients : nat;
  totalAnalyses : nat;
  recentAnalyses : nat;
  conditionDistribution : list ConditionCount.t;
  severityDistribution : list SeverityCount.t;
  monthlyTrends : list MonthCount.t;
  averageConfidence : Num.text;
  topDoctors : option (list TopDoctor.t);
  aiModelPerformance : option (list ModelSummary.t)
}.
End Overview.

(** [.select('_id name specialty license_number')] *)
Module DoctorCard.
Record t := {
  _id : ObjectId.t;
  name : string;
  specialty : option string;
  license_number : option string
}.
End DoctorCard.

(** [.select('_id first_name last_name medical_record_number created_at')] *)
Module PatientCard.
Record t := {
  _id : ObjectId.t;
  first_name : string;
  last_name : string;
  medical_record_number : option string;
  created_at : Z
}.
End PatientCard.

Module PerformanceMetrics.
Record t := {
  total_analyses : nat;
  avg_confidence : option float;
  avg_consultation_time : option float;
  severe_cases : nat;
  moderate_cases : nat;
  mild_cases : nat
}.
End PerformanceMetrics.

Module Doctor.
Record analytics := {
  doctor : DoctorCard.t;
  totalPatients : nat;
  totalAnalyses : nat;
  recentAnalyses : nat;
  conditionDistribution : list ConditionCount.t;
  averageConfidence : Num.text;
  dailyAnalyses : list DayCount.t;
  recentPatients : list PatientCard.t;
  performanceMetrics : option PerformanceMetrics.t
}.
End Doctor.

Module OverallStats.
Record t := {
  total_predictions : nat;
  avg_confidence : option float;
  high_confidence : nat;
  medium_confidence : nat;
  low_confidence : nat
}.
End OverallStats.

Module ConditionPerformance.
Record t := {
  condition_detected : option string;
  total_cases : nat;
  avg_confidence : option float;
  min_confidence : option float;
  max_confidence : option float
}.
End ConditionPerformance.

Module MonthPerformance.
Record t := {
  month : string;
  total_predictions : nat;
  avg_confidence : option float
}.
End MonthPerformance.

Module AIPerformance.
Record report := {
  overallPerformance : option OverallStats.t;
  conditionPerformance : list ConditionPerformance.t;
  monthlyTrends : list MonthPerformance.t;
  modelVersions : list AIModelPerformance.doc
}.
End AIPerformance.

Module AgeCount.
Record t := { age_group : string; count : nat }.
End AgeCount.

Module GenderCount.
Record t := { gender : option string; count : nat }.
End GenderCount.

Module RegistrationCount.
Record t := { month : string; new_patients : nat }.
End RegistrationCount.

Module AnalysisStats.
Record t := { total_patients : nat; patients_with_analysis : nat }.
End AnalysisStats.

Module RecentPatient.
Record t := {
  id : ObjectId.t;
  first_name : string;
  last_name : string;
  medical_record_number : option string;
  created_at : Z;
  user_name : option string
}.
End RecentPatient.

Module PatientAnalytics.
Record report := {
  ageDistribution : list AgeCount.t;
  genderDistribution : list GenderCount.t;
  registrationTrends : list RegistrationCount.t;
  analysisStats : AnalysisStats.t;
  recentPatients : list RecentPatient.t
}.
End PatientAnalytics.

Inductive body :=
| Error (error : string)
| Message (message : string)
| OverviewJson (analytics : Overview.analytics)
| DoctorJson (analytics : Doctor.analytics)
| AIPerformanceJson (report : AIPerformance.report)
| PatientsJson (report : PatientAnalytics.report).

Record response := { status : Z; json : body }.

(** [res.status(code).json({ error })] *)
Definition refusal (code : Z) (error : string) : response :=
  {| status := code; json := Error error |}.

Definition refuse {A : Type} (code : Z) (error : string) : response + A :=
  inl (refusal code error).

(** [res.json(payload)] *)
Definition send (payload : body) : response := {| status := 200; json := payload |}.

(** A middleware either answers the request or hands a value on. *)
Definition and_then {A : Type} (m : response + A) (k : A -> response) : response :=
  match m with
  | inl r => r
  | inr a => k a
  end.

Notation "'pass' x <- m 'in' k" := (and_then m (fun x => k))
  (at level 10, x name, m at level 100, k at level 200).

Definition authenticateToken (auth : authorization) : response + Jwt.payload :=
  match auth with
  | NoToken => refuse 401 "Access token required"
  | InvalidToken => refuse 403 "Invalid or expired token"
  | Bearer user => inr user
  end.

(** [roles.includes(req.user.role)] *)
Definition includes (roles : list string) (role : string) : bool :=
  existsb (String.eqb role) roles.

Definition requireRole (roles : list string) (user : Jwt.payload) : response + unit :=
  if includes roles (Jwt.role user) then inr tt
  else refuse 403 "Insufficient permissions".

(** ** Routes of [analytics.js] *)

Section Routes.
Variable clock : Date.clock.
Variable db : Store.

(** The filter the [countDocuments] queries of [/overview] receive:
    [query.doctor_id = req.user.userId] when the caller is a doctor, no
    condition otherwise. The query casts the string to the [ObjectId] it
    is the [toString()] of, so the ids are compared by value. *)
Definition own (user : Jwt.payload) (doctor_id : option ObjectId.t) : bool :=
  if (Jwt.role user =? "doctor")%string
  then Bson.eqb (Bson.ofId doctor_id) (Bson.Oid (Jwt.userId user))
  else true.

Definition isSome {A : Type} (o : option A) : bool :=
  match o with Some _ => true | None => false end.

(** [{ $group: { _id: '$condition_detected', count: { $sum: 1 } } },
     { $sort: { count: -1 } },
     { $project: { condition_detected: '$_id', count: 1, _id: 0 } }] *)
Definition conditionProject (g : option string * nat) : ConditionCount.t :=
  {| ConditionCount.condition_detected := fst g; ConditionCount.count := snd g |}.

Definition conditionStages (matched : list RetinalAnalysis.doc) : list ConditionCount.t :=
  histogram conditionProject RetinalAnalysis.condition_detected matched.

(** The same three stages on [severity_level]. *)
Definition severityProject (g : option string * nat) : SeverityCount.t :=
  {| SeverityCount.severity_level := fst g; SeverityCount.count := snd g |}.

Definition severityStages (matched : list RetinalAnalysis.doc) : list SeverityCount.t :=
  histogram severityProject RetinalAnalysis.severity_level matched.

(** The [$project] of the monthly series: the year, a hyphen, and the
    month with a zero put before it when it is below 10. *)
Definition monthLabel (year month : Z) : string :=
  Num.toString year ++ "-" ++
  (if month <? 10 then "0" ++ Num.toString month else Num.toString month).

(** [{ $sort: { '_id.year': 1, '_id.month': 1 } }] *)
Definition chronological {B : Type} (y x : Z * Z * B) : bool :=
  let '(yy, ym, _) := y in
  let '(xy, xm, _) := x in
  (yy <? xy) || ((yy =? xy) && (ym <? xm)).

Definition byMonth (matched : list RetinalAnalysis.doc)
  : list (Z * Z * list RetinalAnalysis.doc) :=
  let key a := (Date.year (RetinalAnalysis.created_at a),
                Date.month (RetinalAnalysis.created_at a)) in
  sort_by chronological (group_by key matched).

Definition trendStages (matched : list RetinalAnalysis.doc) : list MonthCount.t :=
  map (fun '(year, month, g) =>
         {| MonthCount.month := monthLabel year month;
            MonthCount.count := length g |})
      (byMonth matched).

(** [{ $group: { _id: null, average: { $avg: '$confidence_score' } } }]
    followed by
    [stats.length > 0 ? parseFloat(stats[0].average || 0).toFixed(4) : '0.0000'] *)
Definition averageStage (matched : list RetinalAnalysis.doc) : list (option float) :=
  map (fun g => Num.avg (omap RetinalAnalysis.confidence_score g)) (group_all matched).

Definition formatAverage (confidenceStats : list (option float)) : Num.text :=
  match confidenceStats with
  | average :: _ => Num.toFixed 4 (Num.parseFloat (Num.or_zero average))
  | [] => Num.Digits "0.0000"
  end.

(** Most active doctors: [$group] by doctor, [$lookup] into [users],
    [$unwind], [$match] on the role, [$project], [$sort], [$limit]. *)
Definition topDoctorsPipeline : list TopDoctor.t :=
  let counted := countBy RetinalAnalysis.doctor_id (retinalanalyses db) in
  let unwound :=
    flat_map (fun g =>
                map (fun u => (u, snd g))
                    (List.filter (fun u => ObjectId.eqb (User._id u) (fst g)) (users db)))
             counted in
  let matched := List.filter (fun r => (User.role (fst r) =? "doctor")%string) unwound in
  let projected :=
    map (fun r => {| TopDoctor.doctor_name := User.name (fst r);
                     TopDoctor.specialty := User.specialty (fst r);
                     TopDoctor.analysis_count := snd r |}) matched in
  let sorted :=
    sort_by (descending (fun d => Z.of_nat (TopDoctor.analysis_count d))) projected in
  take 10 sorted.

(** [$max] over the dates of a group. *)
Definition latest (dates : list Z) : option Z :=
  match dates with
  | [] => None
  | t :: ts => Some (fold_left Z.max ts t)
  end.

(** System-wide model performance, one entry per model version. *)
Definition aiModelPerformancePipeline : list ModelSummary.t :=
  let grouped := group_by AIModelPerformance.model_version (aimodelperformances db) in
  let projected :=
    map (fun g =>
           {| ModelSummary.model_version := fst g;
              ModelSummary.avg_accuracy :=
                Num.avg (omap AIModelPerformance.accuracy_rate (snd g));
              ModelSummary.total_predictions :=
                Num.sum (omap AIModelPerformance.total_predictions (snd g));
              ModelSummary.last_evaluation :=
                latest (map AIModelPerformance.evaluation_date (snd g)) |})
        grouped in
  sort_by (descending_opt ModelSummary.last_evaluation) projected.

(** The condition a doctor's pipelines carry in their [$match] stage,
    [$match.doctor_id = req.user.userId]: [aggregate] sends the stage as it
    is written, so the stored [ObjectId] is compared with a string. No
    condition for another role. *)
Definition mine (user : Jwt.payload) (a : RetinalAnalysis.doc) : bool :=
  if (Jwt.role user =? "doctor")%string
  then Bson.eqb (Bson.Oid (RetinalAnalysis.doctor_id a))
                (Bson.Str (Jwt.userIdString user))
  else true.

(** The filter of the two [countDocuments] queries on the analyses. *)
Definition counted (user : Jwt.payload) (a : RetinalAnalysis.doc) : bool :=
  own user (Some (RetinalAnalysis.doctor_id a)).

Definition conditionMatch (user : Jwt.payload) : list RetinalAnalysis.doc :=
  List.filter (fun a => isSome (RetinalAnalysis.condition_detected a) && mine user a)
              (retinalanalyses db).

Definition severityMatch (user : Jwt.payload) : list RetinalAnalysis.doc :=
  List.filter (fun a => isSome (RetinalAnalysis.severity_level a) && mine user a)
              (retinalanalyses db).

Definition trendMatch (user : Jwt.payload) : list RetinalAnalysis.doc :=
  List.filter (fun a => (Date.twelveMonthsAgo clock <=? RetinalAnalysis.created_at a)
                        && mine user a)
              (retinalanalyses db).

Definition confidenceMatch (user : Jwt.payload) : list RetinalAnalysis.doc :=
  List.filter (fun a => isSome (RetinalAnalysis.confidence_score a) && mine user a)
              (retinalanalyses db).

(** The body of [router.get('/overview', ...)]. *)
Definition overviewAnalytics (user : Jwt.payload) : Overview.analytics :=
  let admin := (Jwt.role user =? "admin")%string in
  {| Overview.totalPatients :=
       length (List.filter (fun p => own user (Patient.doctor_id p)) (patients db));
     Overview.totalAnalyses := length (List.filter (counted user) (retinalanalyses db));
     Overview.recentAnalyses :=
       length (List.filter
                 (fun a => (Date.thirtyDaysAgo clock <=? RetinalAnalysis.created_at a)
                           && counted user a)
                 (retinalanalyses db));
     Overview.conditionDistribution := conditionStages (conditionMatch user);
     Overview.severityDistribution := severityStages (severityMatch user);
     Overview.monthlyTrends := trendStages (trendMatch user);
     Overview.averageConfidence :=
       formatAverage (averageStage (confidenceMatch user));
     Overview.topDoctors := if admin then Some topDoctorsPipeline else None;
     Overview.aiModelPerformance :=
       if admin then Some aiModelPerformancePipeline else None |}.

Definition getOverview (auth : authorization) : response :=
  pass user <- authenticateToken auth in
  pass _ <- requireRole ["admin"; "doctor"] user in
  send (OverviewJson (overviewAnalytics user)).

(** *** [GET /doctor/:doctorId?] *)

(** [!doctorId] for the optional path parameter. *)
Definition missing (doctorId : option string) : bool :=
  match doctorId with
  | None => true
  | Some d => (d =? "")%string
  end.

(** [{ $group: { _id: { $dateToString: ... } , count: { $sum: 1 } } },
     { $sort: { '_id': 1 } }, { $project: { date: '$_id', count: 1, _id: 0 } }] *)
Definition dailyStages (matched : list RetinalAnalysis.doc) : list DayCount.t :=
  let grouped :=
    group_by (fun a => Date.dateToString (RetinalAnalysis.created_at a)) matched in
  let sorted := sort_by (fun y x => String.ltb (fst y) (fst x)) grouped in
  map (fun g => {| DayCount.date := fst g; DayCount.count := length (snd g) |}) sorted.

Definition severityIs (level : string) (a : RetinalAnalysis.doc) : bool :=
  match RetinalAnalysis.severity_level a with
  | Some l => (l =? level)%string
  | None => false
  end.

Definition performanceStage (matched : list RetinalAnalysis.doc)
  : list PerformanceMetrics.t :=
  map (fun g =>
         {| PerformanceMetrics.total_analyses := length g;
            PerformanceMetrics.avg_confidence :=
              Num.avg (omap RetinalAnalysis.confidence_score g);
            PerformanceMetrics.avg_consultation_time :=
              Num.avg (omap RetinalAnalysis.voice_consultation_duration g);
            PerformanceMetrics.severe_cases := sum_cond (severityIs "severe") g;
            PerformanceMetrics.moderate_cases := sum_cond (severityIs "moderate") g;
            PerformanceMetrics.mild_cases := sum_cond (severityIs "mild") g |})
      (group_all matched).

(** The part of the handler that follows the guards. [doctorId] is the
    string the handler holds and [id] the [ObjectId] the queries of the
    model methods ([countDocuments], [find]) cast it to; the [$match]
    stages of the four pipelines are sent with the string itself. *)
Definition doctorAnalytics (doctorId : string) (id : ObjectId.t) (doctor : User.doc)
  : Doctor.analytics :=
  let theirs a := Bson.eqb (Bson.Oid (RetinalAnalysis.doctor_id a)) (Bson.Oid id) in
  let assigned p := Bson.eqb (Bson.ofId (Patient.doctor_id p)) (Bson.Oid id) in
  let matched a := Bson.eqb (Bson.Oid (RetinalAnalysis.doctor_id a)) (Bson.Str doctorId) in
  let recent a := Date.thirtyDaysAgo clock <=? RetinalAnalysis.created_at a in
  {| Doctor.doctor :=
       {| DoctorCard._id := User._id doctor;
          DoctorCard.name := User.name doctor;
          DoctorCard.specialty := User.specialty doctor;
          DoctorCard.license_number := User.license_number doctor |};
     Doctor.totalPatients := length (List.filter assigned (patients db));
     Doctor.totalAnalyses := length (List.filter theirs (retinalanalyses db));
     Doctor.recentAnalyses :=
       length (List.filter (fun a => theirs a && recent a) (retinalanalyses db));
     Doctor.conditionDistribution :=
       conditionStages
         (List.filter (fun a => matched a && isSome (RetinalAnalysis.condition_detected a))
                      (retinalanalyses db));
     Doctor.averageConfidence :=
       formatAverage
         (averageStage
            (List.filter (fun a => matched a && isSome (RetinalAnalysis.confidence_score a))
                         (retinalanalyses db)));
     Doctor.dailyAnalyses :=
       dailyStages (List.filter (fun a => matched a && recent a) (retinalanalyses db));
     Doctor.recentPatients :=
       take 10
         (map (fun p =>
                 {| PatientCard._id := Patient._id p;
                    PatientCard.first_name := Patient.first_name p;
                    PatientCard.last_name := Patient.last_name p;
                    PatientCard.medical_record_number := Patient.medical_record_number p;
                    PatientCard.created_at := Patient.created_at p |})
              (sort_by (descending Patient.created_at)
                       (List.filter assigned (patients db))));
     Doctor.performanceMetrics :=
       head (performanceStage (List.filter matched (retinalanalyses db))) |}.

(** The handler. [User.findOne] is the first query to cast [doctorId]; on
    a string that names no [ObjectId] the cast throws and the [catch]
    branch answers. *)
Definition getDoctor (auth : authorization) (doctorId : option string) : response :=
  pass user <- authenticateToken auth in
  pass doctorId <-
    (if missing doctorId
     then if negb (Jwt.role user =? "doctor")%string
          then refuse 400 "Doctor ID is required for non-doctor users"
          else inr (Jwt.userIdString user)
     else inr (default "" doctorId)) in
  pass _ <-
    (if (Jwt.role user =? "doctor")%string && negb (doctorId =? Jwt.userIdString user)%string
     then refuse 403 "Access denied to other doctor analytics"
     else inr tt) in
  pass id <-
    match ObjectId.cast doctorId with
    | Some id => inr id
    | None => refuse 500 "Failed to fetch doctor analytics"
    end in
  pass doctor <-
    match List.find (fun u => ObjectId.eqb (User._id u) id
                              && (User.role u =? "doctor")%string) (users db) with
    | Some u => inr u
    | None => refuse 404 "Doctor not found"
    end in
  send (DoctorJson (doctorAnalytics doctorId id doctor)).

(** *** [GET /ai-performance] *)

(** [{ $gte: ['$confidence_score', c] }] and [{ $lt: ['$confidence_score', c] }];
    in the BSON order null is below every number. *)
Definition scoreGte (c : float) (a : RetinalAnalysis.doc) : bool :=
  match RetinalAnalysis.confidence_score a with
  | Some x => Num.gte x c
  | None => false
  end.

Definition scoreLt (c : float) (a : RetinalAnalysis.doc) : bool :=
  match RetinalAnalysis.confidence_score a with
  | Some x => Num.lt x c
  | None => true
  end.

Definition overallStage (matched : list RetinalAnalysis.doc) : list OverallStats.t :=
  map (fun g =>
         {| OverallStats.total_predictions := length g;
            OverallStats.avg_confidence :=
              Num.avg (omap RetinalAnalysis.confidence_score g);
            OverallStats.high_confidence := sum_cond (scoreGte 0.9) g;
            OverallStats.medium_confidence :=
              sum_cond (fun a => scoreGte 0.7 a && scoreLt 0.9 a) g;
            OverallStats.low_confidence := sum_cond (scoreLt 0.7) g |})
      (group_all matched).

Definition overallStats : list OverallStats.t :=
  overallStage
    (List.filter (fun a => isSome (RetinalAnalysis.confidence_score a))
                 (retinalanalyses db)).

Definition conditionPerformanceStages (matched : list RetinalAnalysis.doc)
  : list ConditionPerformance.t :=
  let grouped := group_by RetinalAnalysis.condition_detected matched in
  let sorted := sort_by (descending (fun g => Z.of_nat (length (snd g)))) grouped in
  map (fun g =>
         let scores := omap RetinalAnalysis.confidence_score (snd g) in
         {| ConditionPerformance.condition_detected := fst g;
            ConditionPerformance.total_cases := length (snd g);
            ConditionPerformance.avg_confidence := Num.avg scores;
            ConditionPerformance.min_confidence := Num.min_of scores;
            ConditionPerformance.max_confidence := Num.max_of scores |})
      sorted.

Definition monthlyPerformanceStages (matched : list RetinalAnalysis.doc)
  : list MonthPerformance.t :=
  map (fun '(year, month, g) =>
         {| MonthPerformance.month := monthLabel year month;
            MonthPerformance.total_predictions := length g;
            MonthPerformance.avg_confidence :=
              Num.avg (omap RetinalAnalysis.confidence_score g) |})
      (byMonth matched).

Definition performanceReport : AIPerformance.report :=
  let scored a := isSome (RetinalAnalysis.confidence_score a) in
  {| AIPerformance.overallPerformance := head overallStats;
     AIPerformance.conditionPerformance :=
       conditionPerformanceStages
         (List.filter (fun a => isSome (RetinalAnalysis.condition_detected a) && scored a)
                      (retinalanalyses db));
     AIPerformance.monthlyTrends :=
       monthlyPerformanceStages
         (List.filter
            (fun a => (Date.twelveMonthsAgo clock <=? RetinalAnalysis.created_at a)
                      && scored a)
            (retinalanalyses db));
     AIPerformance.modelVersions :=
       sort_by (descending AIModelPerformance.evaluation_date) (aimodelperformances db) |}.

Definition getAIPerformance (auth : authorization) : response :=
  pass user <- authenticateToken auth in
  pass _ <- requireRole ["admin"] user in
  send (AIPerformanceJson performanceReport).

(** *** [GET /patients] *)

(** The condition [matchStage] carries for a doctor,
    [doctor_id = req.user.userId], as the four pipelines send it: the
    string is not cast, and a stored [ObjectId] equals no string. *)
Definition assignedTo (user : Jwt.payload) (p : Patient.doc) : bool :=
  if (Jwt.role user =? "doctor")%string
  then Bson.eqb (Bson.ofId (Patient.doctor_id p)) (Bson.Str (Jwt.userIdString user))
  else true.

(** [{ $match: matchStage }] *)
Definition patientMatch (user : Jwt.payload) : list Patient.doc :=
  List.filter (assignedTo user) (patients db).

Definition ageProject (g : string * nat) : AgeCount.t :=
  {| AgeCount.age_group := fst g; AgeCount.count := snd g |}.

(** [$addFields], [$group] on the [$switch], [$project],
    [{ $sort: { age_group: 1 } }] *)
Definition ageStats (user : Jwt.payload) : list AgeCount.t :=
  let aged p := Age.group (Age.ofBirth (Date.now clock) (Patient.date_of_birth p)) in
  sort_by (fun y x => String.ltb (AgeCount.age_group y) (AgeCount.age_group x))
          (map ageProject (countBy aged (patientMatch user))).

Definition genderProject (g : option string * nat) : GenderCount.t :=
  {| GenderCount.gender := fst g; GenderCount.count := snd g |}.

(** [{ $match: { ...matchStage, gender: { $ne: null } } }, $group, $project];
    this pipeline has no [$sort]. *)
Definition genderStats (user : Jwt.payload) : list GenderCount.t :=
  map genderProject
      (countBy Patient.gender
               (List.filter (fun p => isSome (Patient.gender p)) (patientMatch user))).

(** Patient registration trends of the last twelve months. *)
Definition registrationTrends (user : Jwt.payload) : list RegistrationCount.t :=
  let matched :=
    List.filter (fun p => Date.twelveMonthsAgo clock <=? Patient.created_at p)
                (patientMatch user) in
  let grouped :=
    group_by (fun p => (Date.year (Patient.created_at p), Date.month (Patient.created_at p)))
             matched in
  map (fun '(year, month, g) =>
         {| RegistrationCount.month := monthLabel year month;
            RegistrationCount.new_patients := length g |})
      (sort_by chronological grouped).

(** [$lookup] of the patient's analyses, then
    [{ $gt: [{ $size: '$analyses' }, 0] }] *)
Definition hasAnalysis (p : Patient.doc) : bool :=
  (0 <? length (List.filter
                  (fun a => ObjectId.eqb (RetinalAnalysis.patient_id a) (Patient._id p))
                  (retinalanalyses db)))%nat.

Definition analysisStatsStage (user : Jwt.payload) : list AnalysisStats.t :=
  map (fun g => {| AnalysisStats.total_patients := length g;
                   AnalysisStats.patients_with_analysis := sum_cond hasAnalysis g |})
      (group_all (patientMatch user)).

(** [patient.user_id?.name || null] after [.populate('user_id', 'name')] *)
Definition userName (p : Patient.doc) : option string :=
  match Patient.user_id p with
  | Some uid =>
      match List.find (fun u => ObjectId.eqb (User._id u) uid) (users db) with
      | Some u => if (User.name u =? "")%string then None else Some (User.name u)
      | None => None
      end
  | None => None
  end.

Definition formatPatient (p : Patient.doc) : RecentPatient.t :=
  {| RecentPatient.id := Patient._id p;
     RecentPatient.first_name := Patient.first_name p;
     RecentPatient.last_name := Patient.last_name p;
     RecentPatient.medical_record_number := Patient.medical_record_number p;
     RecentPatient.created_at := Patient.created_at p;
     RecentPatient.user_name := userName p |}.

(** [Patient.find(matchStage)], a query of a model method, which casts
    the doctor's id, then [sort], [limit] and the [map] of the handler. *)
Definition recentPatientsOf (user : Jwt.payload) : list RecentPatient.t :=
  map formatPatient
      (take 10 (sort_by (descending Patient.created_at)
                        (List.filter (fun p => own user (Patient.doctor_id p))
                                     (patients db)))).

Definition patientReport (user : Jwt.payload) : PatientAnalytics.report :=
  {| PatientAnalytics.ageDistribution := ageStats user;
     PatientAnalytics.genderDistribution := genderStats user;
     PatientAnalytics.registrationTrends := registrationTrends user;
     PatientAnalytics.analysisStats :=
       match analysisStatsStage user with
       | stats :: _ => stats
       | [] => {| AnalysisStats.total_patients := 0;
                  AnalysisStats.patients_with_analysis := 0 |}
       end;
     PatientAnalytics.recentPatients := recentPatientsOf user |}.

Definition getPatients (auth : authorization) : response :=
  pass user <- authenticateToken auth in
  pass _ <- requireRole ["admin"; "doctor"] user in
  send (PatientsJson (patientReport user)).

End Routes.

(** ** The mutating route, [POST /ai-performance] *)

(** A key of the parsed JSON body: left out, [null], or a value. *)
Module Field.
Inductive t (A : Type) :=
| Undefined
| Null
| Value (a : A).
Arguments Undefined {A}.
Arguments Null {A}.
Arguments Value {A} a.
End Field.

(** [req.body] with the keys the handler destructures, a value being of
    the type of the schema path it is stored in. *)
Module PerformanceUpdate.
Record t := {
  modelVersion : Field.t string;
  accuracyRate : Field.t float;
  precisionRate : Field.t float;
  recallRate : Field.t float;
  f1Score : Field.t float;
  totalPredictions : Field.t float;
  correctPredictions : Field.t float
}.
End PerformanceUpdate.

(** The payload of the [ai_performance_updated] event. *)
Module PerformanceEvent.
Record t := {
  modelVersion : Field.t string;
  accuracyRate : Field.t float;
  precisionRate : Field.t float;
  recallRate : Field.t float;
  f1Score : Field.t float
}.
End PerformanceEvent.

(** What [ws.send] is given, before [JSON.stringify]. *)
Module Frame.
Record t := { type : string; data : PerformanceEvent.t }.
End Frame.

(** An entry of [activeConnections]: a socket, the user it authenticated
    as, and the frames written to it so far. *)
Module Socket.
Record t := { isOpen : bool; user : Jwt.payload; sent : list Frame.t }.
End Socket.

Record Server := {
  store : Store;
  activeConnections : list Socket.t
}.

(** [broadcastUpdate(eventType, data, userRole = null)] *)
Definition broadcastUpdate (eventType : string) (data : PerformanceEvent.t)
    (userRole : option string) (connections : list Socket.t) : list Socket.t :=
  map (fun ws =>
         if Socket.isOpen ws
            && match userRole with
               | None => true
               | Some r => (r =? "")%string || (Jwt.role (Socket.user ws) =? r)%string
               end
         then {| Socket.isOpen := Socket.isOpen ws;
                 Socket.user := Socket.user ws;
                 Socket.sent :=
                   (Socket.sent ws ++ [{| Frame.type := eventType; Frame.data := data |}])%list |}
         else ws)
      connections.

(** [Model.findOneAndUpdate(filter, update, { upsert: true, new: true })]:
    the first document that matches is updated; when none matches, one is
    inserted. *)
Fixpoint findOneAndUpdate {A : Type} (filter : A -> bool) (update : A -> A) (inserted : A)
    (docs : list A) : list A :=
  match docs with
  | [] => [inserted]
  | d :: docs' =>
      if filter d then update d :: docs'
      else d :: findOneAndUpdate filter update inserted docs'
  end.

(** JavaScript truthiness of the two required fields. *)
Definition truthyString (s : Field.t string) : bool :=
  match s with
  | Field.Value s => negb (s =? "")%string
  | _ => false
  end.

Definition truthyNumber (x : Field.t float) : bool :=
  match x with
  | Field.Value x => Num.truthy x
  | _ => false
  end.

(** The cast of a key of the update to a path of type [Number]: [null]
    and every number pass, except NaN, on which the cast throws. *)
Definition castNumber (x : Field.t float) : bool :=
  match x with
  | Field.Value x => negb (PrimFloat.is_nan x)
  | _ => true
  end.

(** What [$set] does to one path: a key that is left out is dropped from
    the update, so the path keeps what it holds; [null] and a value are
    stored. *)
Definition assign {A : Type} (supplied : Field.t A) (stored : option A) : option A :=
  match supplied with
  | Field.Undefined => stored
  | Field.Null => None
  | Field.Value a => Some a
  end.

Section Upsert.
Variable clock : Date.clock.

(** The [filter] object: the version, and an evaluation date from the
    first millisecond of the local day up to, but not including, its
    last. *)
Definition sameVersionToday (modelVersion : Field.t string)
    (row : AIModelPerformance.doc) : bool :=
  match AIModelPerformance.model_version row, modelVersion with
  | Some v, Field.Value mv => (v =? mv)%string
  | _, _ => false
  end
  && (Date.startOfDay clock <=? AIModelPerformance.evaluation_date row)
  && (AIModelPerformance.evaluation_date row <? Date.endOfDay clock).

(** The [update] object, which has no operator and is applied as a
    [$set]. *)
Definition updateFrom (body : PerformanceUpdate.t) (row : AIModelPerformance.doc)
  : AIModelPerformance.doc :=
  {| AIModelPerformance.model_version :=
       assign (PerformanceUpdate.modelVersion body) (AIModelPerformance.model_version row);
     AIModelPerformance.accuracy_rate :=
       assign (PerformanceUpdate.accuracyRate body) (AIModelPerformance.accuracy_rate row);
     AIModelPerformance.precision_rate :=
       assign (PerformanceUpdate.precisionRate body) (AIModelPerformance.precision_rate row);
     AIModelPerformance.recall_rate :=
       assign (PerformanceUpdate.recallRate body) (AIModelPerformance.recall_rate row);
     AIModelPerformance.f1_score :=
       assign (PerformanceUpdate.f1Score body) (AIModelPerformance.f1_score row);
     AIModelPerformance.total_predictions :=
       assign (PerformanceUpdate.totalPredictions body)
              (AIModelPerformance.total_predictions row);
     AIModelPerformance.correct_predictions :=
       assign (PerformanceUpdate.correctPredictions body)
              (AIModelPerformance.correct_predictions row);
     AIModelPerformance.evaluation_date := Date.now clock |}.

(** The document an upsert starts from when no row matches: the paths the
    schema gives a default. *)
Definition schemaDefaults : AIModelPerformance.doc :=
  {| AIModelPerformance.model_version := None;
     AIModelPerformance.accuracy_rate := None;
     AIModelPerformance.precision_rate := None;
     AIModelPerformance.recall_rate := None;
     AIModelPerformance.f1_score := None;
     AIModelPerformance.total_predictions := Some 0%float;
     AIModelPerformance.correct_predictions := Some 0%float;
     AIModelPerformance.evaluation_date := Date.now clock |}.

Definition upsertPerformance (body : PerformanceUpdate.t) (db : Store) : Store :=
  {| users := users db;
     patients := patients db;
     retinalanalyses := retinalanalyses db;
     aimodelperformances :=
       findOneAndUpdate (sameVersionToday (PerformanceUpdate.modelVersion body))
                        (updateFrom body) (updateFrom body schemaDefaults)
                        (aimodelperformances db) |}.

Definition eventOf (body : PerformanceUpdate.t) : PerformanceEvent.t :=
  {| PerformanceEvent.modelVersion := PerformanceUpdate.modelVersion body;
     PerformanceEvent.accuracyRate := PerformanceUpdate.accuracyRate body;
     PerformanceEvent.precisionRate := PerformanceUpdate.precisionRate body;
     PerformanceEvent.recallRate := PerformanceUpdate.recallRate body;
     PerformanceEvent.f1Score := PerformanceUpdate.f1Score body |}.

(** The guards in front of the write: the two middlewares, then the
    check of the required fields. *)
Definition admission (auth : authorization) (body : PerformanceUpdate.t) : response + unit :=
  match authenticateToken auth with
  | inl r => inl r
  | inr user =>
      match requireRole ["admin"] user with
      | inl r => inl r
      | inr _ =>
          if negb (truthyString (PerformanceUpdate.modelVersion body))
             || negb (truthyNumber (PerformanceUpdate.accuracyRate body))
          then refuse 400 "Model version and accuracy rate are required"
          else inr tt
      end
  end.

(** The update passes the casts of [findOneAndUpdate]. *)
Definition castUpdate (body : PerformanceUpdate.t) : bool :=
  castNumber (PerformanceUpdate.accuracyRate body)
  && castNumber (PerformanceUpdate.precisionRate body)
  && castNumber (PerformanceUpdate.recallRate body)
  && castNumber (PerformanceUpdate.f1Score body)
  && castNumber (PerformanceUpdate.totalPredictions body)
  && castNumber (PerformanceUpdate.correctPredictions body).

(** Every key of the update is in the body, as a value or as [null]. *)
Definition present {A : Type} (x : Field.t A) : bool :=
  match x with
  | Field.Undefined => false
  | _ => true
  end.

Definition complete (body : PerformanceUpdate.t) : bool :=
  present (PerformanceUpdate.modelVersion body)
  && present (PerformanceUpdate.accuracyRate body)
  && present (PerformanceUpdate.precisionRate body)
  && present (PerformanceUpdate.recallRate body)
  && present (PerformanceUpdate.f1Score body)
  && present (PerformanceUpdate.totalPredictions body)
  && present (PerformanceUpdate.correctPredictions body).

(** The handler; a cast that throws leaves the collection as it is and
    skips the broadcast. *)
Definition postAIPerformance (auth : authorization) (body : PerformanceUpdate.t)
    (server : Server) : response * Server :=
  match admission auth body with
  | inl r => (r, server)
  | inr _ =>
      if castUpdate body
      then (send (Message "AI model performance updated successfully"),
            {| store := upsertPerformance body (store server);
               activeConnections :=
                 broadcastUpdate "ai_performance_updated" (eventOf body) None
                                 (activeConnections server) |})
      else (refusal 500 "Failed to update AI performance", server)
  end.

End Upsert.

(** ** Calendar days of a stored row *)

Definition sameVersion (modelVersion : Field.t string) (row : AIModelPerformance.doc) : bool :=
  match AIModelPerformance.model_version row, modelVersion with
  | Some v, Field.Value mv => (v =? mv)%string
  | _, _ => false
  end.

(** The row is of the given model version and dated within the server's
    local calendar day of the clock, from its first millisecond to its
    last. *)
Definition onLocalDay (clock : Date.clock) (modelVersion : Field.t string)
    (row : AIModelPerformance.doc) : bool :=
  sameVersion modelVersion row
  && (Date.startOfDay clock <=? AIModelPerformance.evaluation_date row)
  && (AIModelPerformance.evaluation_date row <=? Date.endOfDay clock).

(** The UTC calendar day of an instant, as a day number. *)
Definition utcDay (t : Z) : Z := t / Date.msPerDay.

(** The row is of the given model version and dated within the given UTC
    calendar day. *)
Definition onUtcDay (day : Z) (modelVersion : Field.t string)
    (row : AIModelPerformance.doc) : bool :=
  sameVersion modelVersion row
  && (utcDay (AIModelPerformance.evaluation_date row) =? day).

(** ** Sample data *)

Module Sample.

Definition doctorId : ObjectId.t :=
  {| ObjectId.hex := "64b7f0c2a1d3e4f5a6b7c8d1"; ObjectId.wf := eq_refl |}.

Definition adminId : ObjectId.t :=
  {| ObjectId.hex := "64b7f0c2a1d3e4f5a6b7c8a1"; ObjectId.wf := eq_refl |}.

Definition patientUserId : ObjectId.t :=
  {| ObjectId.hex := "64b7f0c2a1d3e4f5a6b7c8e1"; ObjectId.wf := eq_refl |}.

Definition patientId : ObjectId.t :=
  {| ObjectId.hex := "64b7f0c2a1d3e4f5a6b7c8f1"; ObjectId.wf := eq_refl |}.

(** The id of no stored user. *)
Definition otherId : ObjectId.t :=
  {| ObjectId.hex := "64b7f0c2a1d3e4f5a6b7c8d2"; ObjectId.wf := eq_refl |}.

Definition doctor : Jwt.payload :=
  {| Jwt.userId := doctorId; Jwt.email := "dr.smith@hospital.com"; Jwt.role := "doctor" |}.

Definition admin : Jwt.payload :=
  {| Jwt.userId := adminId; Jwt.email := "admin@retinal-ai.com"; Jwt.role := "admin" |}.

Definition patient : Jwt.payload :=
  {| Jwt.userId := patientUserId; Jwt.email := "patient@email.com"; Jwt.role := "patient" |}.

Definition analysis (doctor_id : ObjectId.t) (condition : string) (score : float) (at_ : Z)
  : RetinalAnalysis.doc :=
  {| RetinalAnalysis.patient_id := patientId;
     RetinalAnalysis.doctor_id := doctor_id;
     RetinalAnalysis.confidence_score := Some score;
     RetinalAnalysis.condition_detected := Some condition;
     RetinalAnalysis.severity_level := Some "mild";
     RetinalAnalysis.voice_consultation_duration := None;
     RetinalAnalysis.created_at := at_ |}.

(** 2024-02-29T00:00:00Z *)
Definition leapDay : Z := 1709164800000.

Definition utcZone : Date.zone := Date.fixed 0.

(** Two hours east of UTC. *)
Definition eastZone : Date.zone := Date.fixed (2 * 3600000).

Definition clock : Date.clock :=
  {| Date.now := leapDay + 3600000; Date.timeZone := utcZone |}.

(** One doctor, one patient account, and the doctor's two analyses. *)
Definition db : Store :=
  {| users :=
       [ {| User._id := doctorId; User.name := "Dr. John Smith"; User.role := "doctor";
            User.specialty := Some "Ophthalmology";
            User.license_number := Some "MD123456" |};
         {| User._id := patientUserId; User.name := "Sarah Johnson"; User.role := "patient";
            User.specialty := None; User.license_number := None |} ];
     patients :=
       [ {| Patient._id := patientId; Patient.user_id := Some patientUserId;
            Patient.doctor_id := Some doctorId;
            Patient.medical_record_number := Some "MRN001";
            Patient.first_name := "Sarah"; Patient.last_name := "Johnson";
            Patient.date_of_birth := 479692800000;
            Patient.gender := Some "female";
            Patient.created_at := leapDay - 86400000 |} ];
     retinalanalyses :=
       [ analysis doctorId "CNV" 0.95 leapDay; analysis doctorId "DME" 0.82 (leapDay + 1) ];
     aimodelperformances := [] |}.

Definition server : Server := {| store := db; activeConnections := [] |}.

Definition update (totalPredictions : float) : PerformanceUpdate.t :=
  {| PerformanceUpdate.modelVersion := Field.Value "DeiT+ResNet18-v1.0";
     PerformanceUpdate.accuracyRate := Field.Value 0.9845%float;
     PerformanceUpdate.precisionRate := Field.Value 0.9823%float;
     PerformanceUpdate.recallRate := Field.Value 0.9867%float;
     PerformanceUpdate.f1Score := Field.Value 0.9845%float;
     PerformanceUpdate.totalPredictions := Field.Value totalPredictions;
     PerformanceUpdate.correctPredictions := Field.Value 9845%float |}.

(** An update that gives the two required fields and nothing else. *)
Definition accuracyOnly (accuracyRate : float) : PerformanceUpdate.t :=
  {| PerformanceUpdate.modelVersion := Field.Value "DeiT+ResNet18-v1.0";
     PerformanceUpdate.accuracyRate := Field.Value accuracyRate;
     PerformanceUpdate.precisionRate := Field.Undefined;
     PerformanceUpdate.recallRate := Field.Undefined;
     PerformanceUpdate.f1Score := Field.Undefined;
     PerformanceUpdate.totalPredictions := Field.Undefined;
     PerformanceUpdate.correctPredictions := Field.Undefined |}.

(** The update with an accuracy rate of zero. *)
Definition zeroAccuracy : PerformanceUpdate.t :=
  {| PerformanceUpdate.modelVersion := Field.Value "DeiT+ResNet18-v1.0";
     PerformanceUpdate.accuracyRate := Field.Value 0%float;
     PerformanceUpdate.precisionRate := Field.Undefined;
     PerformanceUpdate.recallRate := Field.Undefined;
     PerformanceUpdate.f1Score := Field.Undefined;
     PerformanceUpdate.totalPredictions := Field.Value 10%float;
     PerformanceUpdate.correctPredictions := Field.Value 0%float |}.

(** A server two hours east of UTC, at 21:00 and at 23:00 UTC of the
    same UTC day: 23:00 local, then 01:00 local of the next day. *)
Definition eastEvening : Date.clock :=
  {| Date.now := leapDay + 21 * 3600000; Date.timeZone := eastZone |}.

Definition eastNight : Date.clock :=
  {| Date.now := leapDay + 23 * 3600000; Date.timeZone := eastZone |}.

(** A server on UTC at 10:00 and at 15:00 of one day. *)
Definition morning : Date.clock :=
  {| Date.now := leapDay + 10 * 3600000; Date.timeZone := utcZone |}.

Definition afternoon : Date.clock :=
  {| Date.now := leapDay + 15 * 3600000; Date.timeZone := utcZone |}.

(** The same server at 23:59:59.999 of that day. *)
Definition lastMillisecond : Date.clock :=
  {| Date.now := leapDay + Date.msPerDay - 1; Date.timeZone := utcZone |}.

End Sample.

(** ** Further sample data *)

Module Clinic.

Definition secondPatientId : ObjectId.t :=
  {| ObjectId.hex := "64b7f0c2a1d3e4f5a6b7c8f2"; ObjectId.wf := eq_refl |}.

(** A child, assigned to no doctor and without an account. *)
Definition child : Patient.doc :=
  {| Patient._id := secondPatientId; Patient.user_id := None;
     Patient.doctor_id := None;
     Patient.medical_record_number := Some "MRN002";
     Patient.first_name := "Robert"; Patient.last_name := "Chen";
     Patient.date_of_birth := 1262304000000;
     Patient.gender := None;
     Patient.created_at := Sample.leapDay - 2 * 86400000 |}.

(** The sample store with the child as a second patient. *)
Definition db : Store :=
  {| users := users Sample.db;
     patients := (patients Sample.db ++ [child])%list;
     retinalanalyses := retinalanalyses Sample.db;
     aimodelperformances := [] |}.

(** A socket of each kind: an open one of an admin, an open one of a doctor
    and a closed one. *)
Definition sockets : list Socket.t :=
  [ {| Socket.isOpen := true; Socket.user := Sample.admin; Socket.sent := [] |};
    {| Socket.isOpen := true; Socket.user := Sample.doctor; Socket.sent := [] |};
    {| Socket.isOpen := false; Socket.user := Sample.patient; Socket.sent := [] |} ].

Definition server : Server := {| store := Sample.db; activeConnections := sockets |}.

(** Central European time around the change of 31 March 2024, when
    02:00 local became 03:00 at 01:00 UTC: one hour east of UTC before,
    two hours after. A local time the change skipped is read with the
    offset before it. *)
Definition europe : Date.zone :=
  {| Date.offsetAt := fun t => if t <? 1711846800000 then 3600000 else 7200000;
     Date.offsetOf := fun t => if t <? 1711854000000 then 3600000 else 7200000 |}.

(** Noon of that day, local time. *)
Definition springForward : Date.clock :=
  {| Date.now := 1711879200000; Date.timeZone := europe |}.


End Clinic.

(** * Properties *)

(** ** The stages *)

Section StageFacts.
Context {A : Type}.

Lemma group_map_lookup `{Countable K} (key : A -> K) (docs : list A) (k : K) :
  group_map key docs !! k =
    match filter (fun d => key d = k) docs with
    | [] => None
    | g => Some g
    end.
Proof.
  induction docs as [|d docs IH]; simpl.
  - apply lookup_empty.
  - destruct (decide (key d = k)) as [<-|Hne].
    + rewrite lookup_insert_eq, filter_cons_True by reflexivity.
      rewrite IH. now destruct (filter _ docs).
    + rewrite lookup_insert_ne, filter_cons_False by assumption.
      exact IH.
Qed.

Lemma group_by_spec `{Countable K} (key : A -> K) (docs : list A) (k : K) (g : list A) :
  (k, g) ∈ group_by key docs <-> g = filter (fun d => key d = k) docs /\ g <> [].
Proof.
  unfold group_by. rewrite elem_of_map_to_list, group_map_lookup.
  destruct (filter _ docs) eqn:E; split.
  - discriminate.
  - intros [-> Hg]. now destruct Hg.
  - intros [= <-]. now split.
  - intros [-> _]. reflexivity.
Qed.

Lemma group_by_NoDup `{Countable K} (key : A -> K) (docs : list A) :
  NoDup (map fst (group_by key docs)).
Proof. apply NoDup_fst_map_to_list. Qed.

(** Every group holds a document of the input, and its key is that
    document's. *)
Lemma group_by_inhabited `{Countable K} (key : A -> K) (docs : list A) (k : K) (g : list A) :
  (k, g) ∈ group_by key docs -> exists d, d ∈ docs /\ key d = k.
Proof.
  intros [-> Hg]%group_by_spec.
  destruct (filter _ docs) as [|d g'] eqn:E; [now destruct Hg|].
  exists d.
  assert (Hd : d ∈ filter (fun d => key d = k) docs) by (rewrite E; left).
  apply list_elem_of_filter in Hd. tauto.
Qed.

Lemma countBy_spec `{Countable K} (key : A -> K) (docs : list A) (k : K) (n : nat) :
  (k, n) ∈ countBy key docs <->
  n = length (filter (fun d => key d = k) docs) /\ n <> O.
Proof.
  unfold countBy. split.
  - intros [[k' g] [[= -> ->] [-> Hg]%group_by_spec]]%list_elem_of_fmap.
    split; [reflexivity|]. simpl. now destruct (filter _ docs).
  - intros [-> Hn].
    apply list_elem_of_fmap. exists (k, filter (fun d => key d = k) docs).
    split; [reflexivity|]. apply group_by_spec. split; [reflexivity|].
    intros E. now rewrite E in Hn.
Qed.


Lemma insert_by_Permutation (ahead : A -> A -> bool) (x : A) (l : list A) :
  Permutation (insert_by ahead x l) (x :: l).
Proof.
  induction l as [|y l IH]; simpl; [reflexivity|].
  destruct (ahead y x); [|reflexivity].
  rewrite IH. apply perm_swap.
Qed.

Lemma sort_by_Permutation (ahead : A -> A -> bool) (l : list A) :
  Permutation (sort_by ahead l) l.
Proof.
  induction l as [|x l IH]; simpl; [reflexivity|].
  rewrite insert_by_Permutation. now constructor.
Qed.

Lemma sort_by_elem_of (ahead : A -> A -> bool) (l : list A) (x : A) :
  x ∈ sort_by ahead l <-> x ∈ l.
Proof. now rewrite sort_by_Permutation. Qed.

Lemma sort_by_length (ahead : A -> A -> bool) (l : list A) :
  length (sort_by ahead l) = length l.
Proof. apply Permutation_length, sort_by_Permutation. Qed.

Section Descending.
Variable key : A -> Z.

Local Abbreviation notBelow := (fun a b : A => key b <= key a).

Lemma insert_descending_HdRel (x a : A) (l : list A) :
  notBelow a x -> HdRel notBelow a l -> HdRel notBelow a (insert_by (descending key) x l).
Proof.
  intros Hax Hal. destruct l as [|y l]; simpl.
  - now constructor.
  - destruct (descending key y x); constructor; trivial.
    now inversion Hal.
Qed.

Lemma insert_descending_Sorted (x : A) (l : list A) :
  Sorted notBelow l -> Sorted notBelow (insert_by (descending key) x l).
Proof.
  induction 1 as [|y l Hl IH Hy]; simpl.
  - repeat constructor.
  - unfold descending at 1. destruct (key x <? key y) eqn:E.
    + constructor; [exact IH|].
      apply insert_descending_HdRel; [|exact Hy].
      cbn beta. lia.
    + constructor; [now constructor|].
      constructor. lia.
Qed.

Lemma sort_descending_Sorted (l : list A) :
  Sorted notBelow (sort_by (descending key) l).
Proof.
  induction l as [|x l IH]; simpl; [constructor|].
  now apply insert_descending_Sorted.
Qed.

(** The output of [{ $sort: { key: -1 } }] never rises. *)
Lemma sort_descending (l : list A) :
  StronglySorted (fun a b => key b <= key a) (sort_by (descending key) l).
Proof.
  apply Sorted_StronglySorted; [|apply sort_descending_Sorted].
  intros a b c Hab Hbc. lia.
Qed.



End Descending.

Lemma StronglySorted_weaken (R S : A -> A -> Prop) (l : list A) :
  (forall x y, R x y -> S x y) -> StronglySorted R l -> StronglySorted S l.
Proof.
  intros HRS. induction 1 as [|x l Hl IH Hx]; constructor; trivial.
  eapply List.Forall_impl; [|exact Hx]. apply HRS.
Qed.

Lemma StronglySorted_take (R : A -> A -> Prop) (n : nat) (l : list A) :
  StronglySorted R l -> StronglySorted R (take n l).
Proof.
  intros Hl. revert n. induction Hl as [|x l Hl IH Hx]; intros [|n]; simpl;
    try constructor.
  - apply IH.
  - apply Forall_take. exact Hx.
Qed.

Lemma sum_cond_from (p : A -> bool) (docs : list A) (n : nat) :
  fold_left (fun acc d => (acc + if p d then 1 else 0)%nat) docs n =
  (n + sum_cond p docs)%nat.
Proof.
  unfold sum_cond. revert n.
  induction docs as [|d docs IH]; intros n; simpl; [lia|].
  rewrite IH, (IH (if p d then _ else _)). lia.
Qed.

Lemma sum_cond_cons (p : A -> bool) (d : A) (docs : list A) :
  sum_cond p (d :: docs) = ((if p d then 1 else 0) + sum_cond p docs)%nat.
Proof. unfold sum_cond at 1. simpl. apply sum_cond_from. Qed.

(** Three conditions of which every document meets exactly one split the
    group's count. *)
Lemma sum_cond_split (p q r : A -> bool) (docs : list A) :
  (forall d, ((if p d then 1 else 0) + (if q d then 1 else 0)
              + (if r d then 1 else 0) = 1)%nat) ->
  (sum_cond p docs + sum_cond q docs + sum_cond r docs = length docs)%nat.
Proof.
  intros Hone. induction docs as [|d docs IH]; [reflexivity|].
  rewrite !sum_cond_cons. simpl length. specialize (Hone d). lia.
Qed.

End StageFacts.

(** ** Numbers *)

Section NumFacts.

Lemma gte_not_lt (x y : float) : Num.gte x y = negb (Num.lt x y).
Proof. unfold Num.gte, Num.lt. now destruct (Num.compare x y). Qed.

(** Below a positive finite bound, below every larger bound of the same
    exponent. *)
Lemma compare_decoded_widen (a : spec_float) (m1 m2 : positive) (e : Z) :
  (m1 < m2)%positive ->
  Num.compare_decoded a (S754_finite false m1 e) = Lt ->
  Num.compare_decoded a (S754_finite false m2 e) = Lt.
Proof.
  intros Hm. unfold Num.compare_decoded, SFcompare.
  destruct a as [s|s| |s m e']; trivial.
  destruct s; trivial.
  destruct (e' ?= e); trivial.
  change (Pos.compare_cont Eq m m1) with (m ?= m1)%positive.
  change (Pos.compare_cont Eq m m2) with (m ?= m2)%positive.
  rewrite !Pos.compare_lt_iff. lia.
Qed.

Lemma lt_low_lt_high (x : float) :
  Num.lt x 0.7 = true -> Num.lt x 0.9 = true.
Proof.
  unfold Num.lt, Num.compare.
  replace (Prim2SF 0.7) with (S754_finite false 6305039478318694 (-53))
    by (vm_compute; reflexivity).
  replace (Prim2SF 0.9) with (S754_finite false 8106479329266893 (-53))
    by (vm_compute; reflexivity).
  destruct (Num.compare_decoded _ (S754_finite false 6305039478318694 _)) eqn:E;
    try discriminate.
  intros _. apply compare_decoded_widen with (m2 := 8106479329266893%positive) in E;
    [now rewrite E | reflexivity].
Qed.

(** On numbers other than NaN the order is the IEEE one. *)
Lemma lt_ieee (x y : float) :
  Prim2SF x <> S754_nan -> Prim2SF y <> S754_nan ->
  Num.lt x y = SFltb (Prim2SF x) (Prim2SF y).
Proof.
  intros Hx Hy. unfold Num.lt, Num.compare, Num.compare_decoded, SFltb.
  destruct (Prim2SF x) as [s|s| |s m e], (Prim2SF y) as [s'|s'| |s' m' e'];
    try contradiction; simpl; trivial.
Qed.

(** [toFixed] rounds to the nearest multiple of [10^-f], upwards on a tie:
    with [x = m * 2^e] and [n] the integer it prints,
    [-1/2 < n - x * 10^f <= 1/2]. *)
Lemma nearest_scaled_spec (f : nat) (m : positive) (e : Z) :
  e < 0 ->
  let n := Num.nearest_scaled f m e in
  let d := 2 ^ (- e) in
  - d < 2 * (n * d - Z.pos m * 10 ^ Z.of_nat f) <= d.
Proof.
  intros He n d. subst n. unfold Num.nearest_scaled.
  destruct (0 <=? e) eqn:E; [lia|].
  replace (2 ^ (- e + 1)) with (2 * d) by (subst d; rewrite Z.pow_add_r; lia).
  assert (Hd : 0 < d) by (subst d; apply Z.pow_pos_nonneg; lia).
  fold d. set (s := 10 ^ Z.of_nat f). clearbody d s.
  pose proof (Z.div_mod (2 * Z.pos m * s + d) (2 * d) ltac:(lia)) as Hdiv.
  pose proof (Z.mod_pos_bound (2 * Z.pos m * s + d) (2 * d) ltac:(lia)) as Hmod.
  lia.
Qed.

(** Values JavaScript is known to print. *)
Example toFixed_half_up : Num.toFixed 0 2.5 = Num.Digits "3".
Proof. vm_compute. reflexivity. Qed.

Example toFixed_inexact_literal : Num.toFixed 2 1.005 = Num.Digits "1.00".
Proof. vm_compute. reflexivity. Qed.

Example toFixed_small_negative : Num.toFixed 4 (-0.00001) = Num.Digits "-0.0000".
Proof. vm_compute. reflexivity. Qed.

Example toFixed_pads : Num.toFixed 4 0 = Num.Digits "0.0000".
Proof. vm_compute. reflexivity. Qed.

(** Every analysis falls into exactly one confidence bucket. *)
Lemma one_bucket (a : RetinalAnalysis.doc) :
  ((if scoreGte 0.9 a then 1 else 0)
   + (if scoreGte 0.7 a && scoreLt 0.9 a then 1 else 0)
   + (if scoreLt 0.7 a then 1 else 0) = 1)%nat.
Proof.
  unfold scoreGte, scoreLt.
  destruct (RetinalAnalysis.confidence_score a) as [x|]; [|reflexivity].
  rewrite !gte_not_lt.
  pose proof (lt_low_lt_high x) as Hx.
  destruct (Num.lt x 0.7), (Num.lt x 0.9); trivial.
  now specialize (Hx eq_refl).
Qed.

End NumFacts.

(** ** Dates and labels *)

Section DateFacts.

Lemma month_range (t : Z) : 1 <= Date.month t <= 12.
Proof.
  unfold Date.month, Date.civil_from_days. cbn [fst snd].
  set (z := t / Date.msPerDay + 719468).
  set (doe := z - z / 146097 * 146097).
  assert (Hdoe : 0 <= doe <= 146096) by (subst doe; Z.div_mod_to_equations; lia).
  clearbody doe. clear z.
  set (yoe := (doe - doe / 1460 + doe / 36524 - doe / 146096) / 365).
  set (doy := doe - (365 * yoe + yoe / 4 - yoe / 100)).
  assert (Hdoy : 0 <= doy <= 365)
    by (subst doy yoe; Z.div_mod_to_equations; lia).
  clearbody doy. clear yoe.
  set (mp := (5 * doy + 2) / 153).
  assert (Hmp : 0 <= mp <= 11) by (subst mp; Z.div_mod_to_equations; lia).
  clearbody mp.
  destruct (mp <? 10) eqn:E; lia.
Qed.

Example civil_epoch : Date.civil_from_days 0 = (1970, 1, 1).
Proof. reflexivity. Qed.

Example civil_leap_day : Date.civil_from_days 19782 = (2024, 2, 29).
Proof. reflexivity. Qed.

Example civil_back : Date.days_from_civil 2024 2 29 = 19782.
Proof. reflexivity. Qed.

(** Twelve months before 29 February 2024, 03:00 local time two hours east
    of UTC, is 1 March 2023, 03:00 local time. *)
Example twelveMonthsAgo_leap_day :
  Date.dateToString
    (Date.twelveMonthsAgo
       {| Date.now := 1709168400000; Date.timeZone := Date.fixed 7200000 |})
  = "2023-03-01".
Proof. vm_compute. reflexivity. Qed.

Lemma month_cases (m : Z) :
  1 <= m <= 12 ->
  m = 1 \/ m = 2 \/ m = 3 \/ m = 4 \/ m = 5 \/ m = 6 \/
  m = 7 \/ m = 8 \/ m = 9 \/ m = 10 \/ m = 11 \/ m = 12.
Proof. lia. Qed.

(** The label is the year, a hyphen and the month on two digits. *)
Lemma monthLabel_padded (y m : Z) :
  1 <= m <= 12 ->
  monthLabel y m = Num.toString y ++ "-" ++ Date.padded 2 m.
Proof.
  intros Hm. apply month_cases in Hm.
  repeat (destruct Hm as [->|Hm]; [reflexivity|]). now subst m.
Qed.

Lemma padded_month (m : Z) :
  1 <= m <= 12 ->
  String.length (Date.padded 2 m) = 2%nat
  /\ (m < 10 -> Date.padded 2 m = "0" ++ Num.toString m)
  /\ (10 <= m -> Date.padded 2 m = Num.toString m).
Proof.
  intros Hm. apply month_cases in Hm.
  repeat (destruct Hm as [->|Hm];
          [split; [reflexivity|split; intros ?; (reflexivity || lia)]|]).
  subst m. split; [reflexivity|split; intros ?; (reflexivity || lia)].
Qed.

End DateFacts.

(** ** Histograms: [$group] with a count, [$sort] on it, [$project] *)

Section Histogram.
Context {A K E : Type} `{Countable K}.
Variable project : K * nat -> E.
Variable entryKey : E -> K.
Variable entryCount : E -> nat.
Hypothesis project_key : forall g, entryKey (project g) = fst g.
Hypothesis project_count : forall g, entryCount (project g) = snd g.
Variable key : A -> K.
Variable matched : list A.

Local Abbreviation entries := (histogram project key matched).





Lemma histogram_entry (e : E) :
  In e entries <->
  e = project (entryKey e, entryCount e)
  /\ entryCount e = length (filter (fun d => key d = entryKey e) matched)
  /\ entryCount e <> O.
Proof.
  unfold histogram. rewrite List.in_map_iff. split.
  - intros [[k n] [<- Hg]].
    apply list_elem_of_In, sort_by_elem_of, countBy_spec in Hg.
    now rewrite project_key, project_count.
  - intros [He Hn]. exists (entryKey e, entryCount e). split; [now symmetry|].
    apply list_elem_of_In, sort_by_elem_of, countBy_spec. exact Hn.
Qed.



End Histogram.

(** ** Object ids *)

Section IdFacts.

Lemma lower_hex (c : ascii) : ObjectId.isLowerHex c = true -> ObjectId.lower c = c.
Proof.
  unfold ObjectId.isLowerHex, ObjectId.lower. cbn zeta.
  generalize (nat_of_ascii c). intros n Hn.
  destruct (Nat.leb_spec 65 n), (Nat.leb_spec n 70); cbn [andb]; trivial.
  destruct (Nat.leb_spec 48 n), (Nat.leb_spec n 57), (Nat.leb_spec 97 n),
    (Nat.leb_spec n 102); cbn [andb orb] in Hn; try discriminate; lia.
Qed.

Lemma lowerCase_hex (s : string) :
  ObjectId.allLowerHex s = true -> ObjectId.lowerCase s = s.
Proof.
  induction s as [|c s IH]; [reflexivity|].
  cbn [ObjectId.allLowerHex ObjectId.lowerCase]. intros [Hc Hs]%andb_true_iff.
  now rewrite lower_hex, IH.
Qed.

(** Two ids with the same digits are the same id. *)
Lemma hex_inj (a b : ObjectId.t) : ObjectId.hex a = ObjectId.hex b -> a = b.
Proof.
  destruct a as [h1 w1], b as [h2 w2]. cbn [ObjectId.hex]. intros <-.
  f_equal. apply (Eqdep_dec.UIP_dec bool_dec).
Qed.

Lemma oid_eqb_eq (a b : ObjectId.t) : ObjectId.eqb a b = true <-> a = b.
Proof.
  unfold ObjectId.eqb. rewrite String.eqb_eq. split; [apply hex_inj|now intros ->].
Qed.

Lemma oid_eqb_refl (a : ObjectId.t) : ObjectId.eqb a a = true.
Proof. now apply oid_eqb_eq. Qed.

(** The cast of an id's own string gives the id back: a query a handler
    sends with [req.user.userId] never throws. *)
Lemma cast_toString (id : ObjectId.t) : ObjectId.cast (ObjectId.toString id) = Some id.
Proof.
  unfold ObjectId.cast, ObjectId.toString.
  assert (Hlow : ObjectId.lowerCase (ObjectId.hex id) = ObjectId.hex id).
  { apply lowerCase_hex. pose proof (ObjectId.wf id) as Hwf.
    unfold ObjectId.wellFormed in Hwf. now apply andb_true_iff in Hwf. }
  destruct (bool_dec _ true) as [H|H].
  - f_equal. apply hex_inj. exact Hlow.
  - rewrite Hlow in H. now destruct (H (ObjectId.wf id)).
Qed.

(** A string that casts to an id has 24 characters. *)
Lemma cast_length (s : string) (id : ObjectId.t) :
  ObjectId.cast s = Some id -> String.length s = 24%nat.
Proof.
  unfold ObjectId.cast. destruct (bool_dec _ true) as [H|H]; [|discriminate].
  intros _. unfold ObjectId.wellFormed in H. apply andb_true_iff in H as [Hlen _].
  apply Nat.eqb_eq in Hlen. rewrite <- Hlen. clear.
  induction s as [|c s IH]; [reflexivity|]. cbn [ObjectId.lowerCase String.length].
  now rewrite IH.
Qed.

(** The cast reads the letters in either case. *)
Example cast_upper_case :
  ObjectId.cast "64B7F0C2A1D3E4F5A6B7C8D1" = Some Sample.doctorId
  /\ ObjectId.cast "d1" = None
  /\ ObjectId.cast "64b7f0c2a1d3e4f5a6b7c8dg" = None.
Proof. vm_compute. repeat split. Qed.

(** A pipeline's [$match] on a doctor's id lets no analysis through. *)
Lemma mine_iff (user : Jwt.payload) (a : RetinalAnalysis.doc) :
  mine user a = true <-> Jwt.role user <> "doctor".
Proof.
  unfold mine. destruct (String.eqb_spec (Jwt.role user) "doctor") as [Hr|Hr].
  - cbn [Bson.eqb]. split; [discriminate|contradiction].
  - split; trivial.
Qed.

Lemma counted_iff (user : Jwt.payload) (a : RetinalAnalysis.doc) :
  counted user a = true <->
  (Jwt.role user = "doctor" -> RetinalAnalysis.doctor_id a = Jwt.userId user).
Proof.
  unfold counted, own. destruct (String.eqb_spec (Jwt.role user) "doctor") as [Hr|Hr].
  - cbn [Bson.ofId Bson.eqb]. rewrite oid_eqb_eq. tauto.
  - split; [contradiction|trivial].
Qed.

Lemma filter_nil_intro {A : Type} (f : A -> bool) (l : list A) :
  (forall x, In x l -> f x = false) -> List.filter f l = [].
Proof.
  induction l as [|x l IH]; intros Hf; [reflexivity|]. cbn [List.filter].
  rewrite (Hf x) by now left. apply IH. intros y Hy. apply Hf. now right.
Qed.

Lemma filter_all_intro {A : Type} (f : A -> bool) (l : list A) :
  (forall x, In x l -> f x = true) -> List.filter f l = l.
Proof.
  induction l as [|x l IH]; intros Hf; [reflexivity|]. cbn [List.filter].
  rewrite (Hf x) by now left. f_equal. apply IH. intros y Hy. apply Hf. now right.
Qed.

End IdFacts.

(** ** [GET /overview] *)

Section OverviewFacts.
Variable clock : Date.clock.
Variable db : Store.

Lemma includes_admin_doctor (role : string) :
  includes ["admin"; "doctor"] role = true <-> role = "admin" \/ role = "doctor".
Proof.
  unfold includes. simpl. rewrite !orb_true_iff, !String.eqb_eq. intuition discriminate.
Qed.

(** A response that carries analytics went through both middlewares. *)
Lemma getOverview_inv (auth : authorization) (a : Overview.analytics) :
  json (getOverview clock db auth) = OverviewJson a ->
  exists user,
    auth = Bearer user
    /\ (Jwt.role user = "admin" \/ Jwt.role user = "doctor")
    /\ a = overviewAnalytics clock db user.
Proof.
  unfold getOverview. destruct auth as [| |user]; simpl; try discriminate.
  unfold requireRole. destruct (includes _ _) eqn:E; simpl; [|discriminate].
  intros [= <-]. exists user. now rewrite <- includes_admin_doctor.
Qed.

Lemma getOverview_granted (user : Jwt.payload) :
  Jwt.role user = "admin" \/ Jwt.role user = "doctor" ->
  getOverview clock db (Bearer user) = send (OverviewJson (overviewAnalytics clock db user)).
Proof.
  intros Hrole%includes_admin_doctor.
  unfold getOverview, authenticateToken, requireRole, and_then.
  now rewrite Hrole.
Qed.



(** What a doctor's four pipelines start from: nothing. *)
Lemma doctor_match_nil (user : Jwt.payload) (p : RetinalAnalysis.doc -> bool)
    (l : list RetinalAnalysis.doc) :
  Jwt.role user = "doctor" ->
  List.filter (fun a => p a && mine user a) l = [].
Proof.
  intros Hrole. apply filter_nil_intro. intros a _.
  destruct (mine user a) eqn:E; [|apply andb_false_r].
  apply mine_iff in E. contradiction.
Qed.

(** For any other role the pipelines carry no condition on the doctor. *)
Lemma other_match_all (user : Jwt.payload) (p : RetinalAnalysis.doc -> bool)
    (l : list RetinalAnalysis.doc) :
  Jwt.role user <> "doctor" ->
  List.filter (fun a => p a && mine user a) l = List.filter p l.
Proof.
  intros Hrole. apply List.filter_ext. intros a.
  apply (mine_iff user a) in Hrole. rewrite Hrole. apply andb_true_r.
Qed.

End OverviewFacts.



(** C7: every month label of the monthly-trends series of [GET /overview]
    is the decimal year of a matched analysis, a hyphen, and its month
    (always between 1 and 12) on two digits: for a month from 1 to 9 the two
    digits are ['0'] followed by the month's digit, from 10 to 12 they are
    the month's own digits. *)
Theorem overview_month_labels
    (clock : Date.clock) (db : Store) (auth : authorization) (a : Overview.analytics)
    (e : MonthCount.t) :
  json (getOverview clock db auth) = OverviewJson a ->
  In e (Overview.monthlyTrends a) ->
  exists d, In d (retinalanalyses db)
  /\ let y := Date.year (RetinalAnalysis.created_at d) in
     let m := Date.month (RetinalAnalysis.created_at d) in
     1 <= m <= 12
     /\ MonthCount.month e = Num.toString y ++ "-" ++ Date.padded 2 m
     /\ String.length (Date.padded 2 m) = 2%nat
     /\ (m < 10 -> Date.padded 2 m = "0" ++ Num.toString m)
     /\ (10 <= m -> Date.padded 2 m = Num.toString m).
Proof.
  intros [user [-> [_ ->]]]%getOverview_inv.
  cbn [overviewAnalytics Overview.monthlyTrends]. unfold trendStages, byMonth.
  intros [[[y m] g] [<- Hg]]%List.in_map_iff.
  apply list_elem_of_In, sort_by_elem_of, group_by_inhabited in Hg as [d [Hd [= <- <-]]].
  apply list_elem_of_In in Hd. unfold trendMatch in Hd. apply List.filter_In in Hd as [Hd _].
  exists d. split; [exact Hd|]. cbn zeta.
  pose proof (month_range (RetinalAnalysis.created_at d)) as Hm.
  split; [exact Hm|]. split.
  - cbn [MonthCount.month]. now apply monthLabel_padded.
  - now apply padded_month.
Qed.

Lemma overview_month_labels_witness :
  exists d, In d (retinalanalyses Sample.db)
  /\ "2024-02" = Num.toString (Date.year (RetinalAnalysis.created_at d)) ++ "-"
                 ++ Date.padded 2 (Date.month (RetinalAnalysis.created_at d)).
Proof.
  assert (Hin : In {| MonthCount.month := "2024-02"; MonthCount.count := 2 |}
                   (Overview.monthlyTrends
                      (overviewAnalytics Sample.clock Sample.db Sample.admin)))
    by (vm_compute; left; reflexivity).
  destruct (overview_month_labels Sample.clock Sample.db (Bearer Sample.admin)
              (overviewAnalytics Sample.clock Sample.db Sample.admin)
              {| MonthCount.month := "2024-02"; MonthCount.count := 2 |}
              eq_refl Hin)
    as [d [Hd [_ [Hlabel _]]]].
  exists d. split; [exact Hd|exact Hlabel].
Defined.

(** C8: the [GET /overview] response holds [topDoctors] (ten entries at
    most, sorted by [analysis_count], never rising) and [aiModelPerformance]
    (one entry per model version) when the caller's role is ['admin'], holds
    neither when it is ['doctor'], and in any response holds either key if
    and only if the role is ['admin']. *)
Theorem overview_admin_only_keys (clock : Date.clock) (db : Store) :
  (forall user, Jwt.role user = "admin" ->
     exists a top models,
       getOverview clock db (Bearer user) = send (OverviewJson a)
       /\ Overview.topDoctors a = Some top
       /\ Overview.aiModelPerformance a = Some models
       /\ (length top <= 10)%nat
       /\ StronglySorted
            (fun x y => (TopDoctor.analysis_count y <= TopDoctor.analysis_count x)%nat) top
       /\ NoDup (map ModelSummary.model_version models))
  /\ (forall user, Jwt.role user = "doctor" ->
        exists a,
          getOverview clock db (Bearer user) = send (OverviewJson a)
          /\ Overview.topDoctors a = None
          /\ Overview.aiModelPerformance a = None)
  /\ (forall auth a user,
        json (getOverview clock db auth) = OverviewJson a -> auth = Bearer user ->
        (is_Some (Overview.topDoctors a) <-> Jwt.role user = "admin")
        /\ (is_Some (Overview.aiModelPerformance a) <-> Jwt.role user = "admin")).
Proof.
  split; [|split].
  - intros user Hrole.
    exists (overviewAnalytics clock db user), (topDoctorsPipeline db),
           (aiModelPerformancePipeline db).
    split; [apply getOverview_granted; now left|].
    cbn [overviewAnalytics Overview.topDoctors Overview.aiModelPerformance].
    rewrite Hrole. cbn [String.eqb Ascii.eqb Bool.eqb andb].
    repeat split.
    + unfold topDoctorsPipeline. rewrite length_take. lia.
    + unfold topDoctorsPipeline. apply StronglySorted_take.
      eapply StronglySorted_weaken; [|apply sort_descending].
      intros x y. cbn beta. lia.
    + unfold aiModelPerformancePipeline.
      rewrite sort_by_Permutation, List.map_map. cbn [ModelSummary.model_version].
      apply group_by_NoDup.
  - intros user Hrole. exists (overviewAnalytics clock db user).
    split; [apply getOverview_granted; now right|].
    cbn [overviewAnalytics Overview.topDoctors Overview.aiModelPerformance].
    now rewrite Hrole.
  - intros auth a user [user' [-> [_ ->]]]%getOverview_inv [= <-].
    cbn [overviewAnalytics Overview.topDoctors Overview.aiModelPerformance].
    destruct (String.eqb_spec (Jwt.role user') "admin") as [Hr|Hr].
    + split; split; trivial; intros _; eexists; reflexivity.
    + split; split; try (intros [? [=]]); intros; contradiction.
Qed.

Lemma overview_admin_only_keys_witness :
  (exists a, getOverview Sample.clock Sample.db (Bearer Sample.admin) = send (OverviewJson a)
             /\ is_Some (Overview.topDoctors a))
  /\ (exists a, getOverview Sample.clock Sample.db (Bearer Sample.doctor)
                = send (OverviewJson a)
                /\ Overview.topDoctors a = None).
Proof.
  destruct (overview_admin_only_keys Sample.clock Sample.db) as [Hadmin [Hdoctor _]].
  split.
  - destruct (Hadmin Sample.admin eq_refl) as [a [top [models [Ha [Htop _]]]]].
    exists a. split; [exact Ha|]. exists top. exact Htop.
  - destruct (Hdoctor Sample.doctor eq_refl) as [a [Ha [Htop _]]].
    exists a. split; [exact Ha|exact Htop].
Defined.

(** C3, as the code answers: when the analyses collection holds exactly
    two analyses of one doctor, CNV at confidence 0.95 and DME at confidence
    0.82, in either order, [GET /overview] called by that doctor answers
    with [totalAnalyses = 2], which a [countDocuments] query counts, and
    with an empty [conditionDistribution] and an [averageConfidence] of
    ["0.0000"], which come from pipelines whose [$match] compares the
    stored id with a string. An admin calling on the same store is answered
    with the two entries CNV with count 1 and DME with count 1, in one
    order or the other, and ["0.8850"]. *)
Theorem overview_two_analyses_as_doctor
    (clock : Date.clock) (db : Store) (user : Jwt.payload) (a1 a2 : RetinalAnalysis.doc) :
  Jwt.role user = "doctor" ->
  RetinalAnalysis.doctor_id a1 = Jwt.userId user ->
  RetinalAnalysis.condition_detected a1 = Some "CNV" ->
  RetinalAnalysis.confidence_score a1 = Some 0.95%float ->
  RetinalAnalysis.doctor_id a2 = Jwt.userId user ->
  RetinalAnalysis.condition_detected a2 = Some "DME" ->
  RetinalAnalysis.confidence_score a2 = Some 0.82%float ->
  retinalanalyses db = [a1; a2] \/ retinalanalyses db = [a2; a1] ->
  (exists a,
     getOverview clock db (Bearer user) = send (OverviewJson a)
     /\ Overview.totalAnalyses a = 2%nat
     /\ Overview.conditionDistribution a = []
     /\ Overview.averageConfidence a = Num.Digits "0.0000")
  /\ (forall admin, Jwt.role admin = "admin" ->
      exists b,
        getOverview clock db (Bearer admin) = send (OverviewJson b)
        /\ Overview.totalAnalyses b = 2%nat
        /\ Permutation (Overview.conditionDistribution b)
             [ {| ConditionCount.condition_detected := Some "CNV";
                  ConditionCount.count := 1 |};
               {| ConditionCount.condition_detected := Some "DME";
                  ConditionCount.count := 1 |} ]
        /\ Overview.averageConfidence b = Num.Digits "0.8850").
Proof.
  intros Hrole Hd1 Hc1 Hs1 Hd2 Hc2 Hs2 Hdb. split.
  - exists (overviewAnalytics clock db user).
    split; [apply getOverview_granted; now right|].
    cbn [overviewAnalytics Overview.totalAnalyses Overview.conditionDistribution
         Overview.averageConfidence].
    unfold conditionMatch, confidenceMatch.
    rewrite !doctor_match_nil by exact Hrole.
    split; [|split; reflexivity].
    assert (Hm1 : counted user a1 = true) by (apply counted_iff; auto).
    assert (Hm2 : counted user a2 = true) by (apply counted_iff; auto).
    destruct Hdb as [-> | ->]; cbn [List.filter]; now rewrite Hm1, Hm2.
  - intros admin Hadmin.
    assert (Hother : Jwt.role admin <> "doctor") by (rewrite Hadmin; discriminate).
    exists (overviewAnalytics clock db admin).
    split; [apply getOverview_granted; now left|].
    cbn [overviewAnalytics Overview.totalAnalyses Overview.conditionDistribution
         Overview.averageConfidence].
    unfold conditionMatch, confidenceMatch.
    rewrite !other_match_all by exact Hother.
    assert (Hcount : forall a, counted admin a = true)
      by (intros a; apply counted_iff; intros Hr; now destruct Hother).
    destruct Hdb as [-> | ->]; cbn [List.filter];
      rewrite !Hcount, Hc1, Hc2, Hs1, Hs2; cbn [isSome];
      (split; [reflexivity|]); split.
    + unfold conditionStages, histogram, countBy, group_by, group_map. cbn [foldr].
      rewrite Hc1, Hc2. vm_compute. first [reflexivity | apply perm_swap].
    + unfold averageStage, group_all. cbn [map omap list_omap]. rewrite Hs1, Hs2.
      vm_compute. reflexivity.
    + unfold conditionStages, histogram, countBy, group_by, group_map. cbn [foldr].
      rewrite Hc1, Hc2. vm_compute. first [reflexivity | apply perm_swap].
    + unfold averageStage, group_all. cbn [map omap list_omap]. rewrite Hs1, Hs2.
      vm_compute. reflexivity.
Qed.

Lemma overview_two_analyses_as_doctor_witness :
  exists a,
    getOverview Sample.clock Sample.db (Bearer Sample.doctor) = send (OverviewJson a)
    /\ Overview.totalAnalyses a = 2%nat
    /\ Overview.conditionDistribution a = []
    /\ Overview.averageConfidence a = Num.Digits "0.0000".
Proof.
  apply (overview_two_analyses_as_doctor Sample.clock Sample.db Sample.doctor
           (Sample.analysis Sample.doctorId "CNV" 0.95 Sample.leapDay)
           (Sample.analysis Sample.doctorId "DME" 0.82 (Sample.leapDay + 1)));
    try reflexivity.
  left. reflexivity.
Defined.

(** ** [GET /ai-performance] *)

(** C4: in the overall statistics of [GET /ai-performance], computed over
    the analyses whose confidence score is not null, the counts of scores
    at or above 0.9, of scores from 0.7 up to but excluding 0.9, and of
    scores below 0.7 add up to [total_predictions], which is the number of
    those analyses; the statistics are left out only when there is no such
    analysis. *)
Theorem confidence_buckets_partition (clock : Date.clock) (db : Store) :
  let scored :=
    List.filter (fun a => isSome (RetinalAnalysis.confidence_score a))
                (retinalanalyses db) in
  match AIPerformance.overallPerformance (performanceReport clock db) with
  | Some s =>
      (OverallStats.high_confidence s + OverallStats.medium_confidence s
       + OverallStats.low_confidence s = OverallStats.total_predictions s)%nat
      /\ OverallStats.total_predictions s = length scored
      /\ scored <> []
  | None => scored = []
  end.
Proof.
  cbn [performanceReport AIPerformance.overallPerformance].
  unfold overallStats, overallStage, group_all.
  destruct (List.filter _ (retinalanalyses db)) as [|d scored]; [reflexivity|].
  cbn [map head OverallStats.high_confidence OverallStats.medium_confidence
       OverallStats.low_confidence OverallStats.total_predictions].
  split; [|split; [reflexivity|discriminate]].
  apply sum_cond_split. exact one_bucket.
Qed.

(** ** [GET /doctor/:doctorId?] *)

Section DoctorFacts.
Variable clock : Date.clock.
Variable db : Store.

(** The ownership guard answers before the collection is read. *)
Lemma getDoctor_foreign (user : Jwt.payload) (d : string) :
  Jwt.role user = "doctor" -> d <> "" -> d <> Jwt.userIdString user ->
  getDoctor clock db (Bearer user) (Some d) =
    refusal 403 "Access denied to other doctor analytics".
Proof.
  intros Hrole Hd Hown. unfold getDoctor, authenticateToken, and_then, missing.
  apply String.eqb_neq in Hd, Hown. rewrite Hd. unfold default, id.
  rewrite Hrole, Hown. reflexivity.
Qed.

Lemma find_none_intro {A : Type} (f : A -> bool) (l : list A) :
  (forall x, In x l -> f x = false) -> List.find f l = None.
Proof.
  induction l as [|x l IH]; intros Hf; [reflexivity|]. simpl.
  rewrite (Hf x) by now left. apply IH. intros y Hy. apply Hf. now right.
Qed.

(** What the handler does once the id is there and the ownership guard
    is passed. *)
Lemma getDoctor_passed (user : Jwt.payload) (d : string) :
  d <> "" ->
  Jwt.role user <> "doctor" \/ d = Jwt.userIdString user ->
  getDoctor clock db (Bearer user) (Some d) =
    match ObjectId.cast d with
    | None => refusal 500 "Failed to fetch doctor analytics"
    | Some id =>
        match List.find (fun u => ObjectId.eqb (User._id u) id
                                  && (User.role u =? "doctor")%string) (users db) with
        | None => refusal 404 "Doctor not found"
        | Some u => send (DoctorJson (doctorAnalytics clock db d id u))
        end
    end.
Proof.
  intros Hd Hpass. unfold getDoctor, authenticateToken, and_then, missing.
  apply String.eqb_neq in Hd. rewrite Hd. unfold default, id.
  assert (Hguard : (Jwt.role user =? "doctor")%string
                   && negb (d =? Jwt.userIdString user)%string = false).
  { destruct Hpass as [Hr| ->].
    - apply String.eqb_neq in Hr. now rewrite Hr.
    - now rewrite String.eqb_refl, andb_false_r. }
  rewrite Hguard. destruct (ObjectId.cast d) as [i|]; [|reflexivity].
  now destruct (List.find _ (users db)).
Qed.

Lemma getDoctor_unknown (user : Jwt.payload) (d : string) (i : ObjectId.t) :
  d <> "" ->
  Jwt.role user <> "doctor" \/ d = Jwt.userIdString user ->
  ObjectId.cast d = Some i ->
  (forall u, In u (users db) -> User._id u = i -> User.role u <> "doctor") ->
  getDoctor clock db (Bearer user) (Some d) = refusal 404 "Doctor not found".
Proof.
  intros Hd Hpass Hcast Hnone. rewrite getDoctor_passed, Hcast by assumption.
  rewrite find_none_intro; [reflexivity|].
  intros u Hu. destruct (ObjectId.eqb (User._id u) i) eqn:Hid; [|reflexivity].
  apply oid_eqb_eq in Hid.
  specialize (Hnone u Hu Hid). apply String.eqb_neq in Hnone. now rewrite Hnone.
Qed.

Lemma userIdString_not_empty (user : Jwt.payload) : Jwt.userIdString user <> "".
Proof.
  intros Hempty. pose proof (cast_length _ _ (cast_toString (Jwt.userId user))) as Hlen.
  unfold Jwt.userIdString in Hempty. rewrite Hempty in Hlen. discriminate.
Qed.

Lemma getDoctor_default (user : Jwt.payload) :
  Jwt.role user = "doctor" ->
  getDoctor clock db (Bearer user) None =
  getDoctor clock db (Bearer user) (Some (Jwt.userIdString user)).
Proof.
  intros Hrole. unfold getDoctor, authenticateToken, and_then, missing.
  rewrite Hrole. unfold default, id. cbn [String.eqb Ascii.eqb Bool.eqb andb negb].
  now destruct (Jwt.userIdString user =? "")%string.
Qed.

End DoctorFacts.

(** C10: in [GET /doctor/:doctorId] the ownership check comes before the
    existence check: a caller with role ['doctor'] who supplies a doctor id
    other than their own is answered 403, whatever the users collection
    holds, so the answer does not tell whether that id exists. *)
Theorem doctor_ownership_before_existence
    (clock : Date.clock) (db db' : Store) (user : Jwt.payload) (d : string) :
  Jwt.role user = "doctor" -> d <> "" -> d <> Jwt.userIdString user ->
  getDoctor clock db (Bearer user) (Some d) =
    refusal 403 "Access denied to other doctor analytics"
  /\ getDoctor clock db (Bearer user) (Some d) = getDoctor clock db' (Bearer user) (Some d).
Proof.
  intros Hrole Hd Hown. split.
  - now apply getDoctor_foreign.
  - now rewrite !getDoctor_foreign.
Qed.

Lemma doctor_ownership_before_existence_witness :
  getDoctor Sample.clock Sample.db (Bearer Sample.doctor)
            (Some "64b7f0c2a1d3e4f5a6b7c8d2") =
    refusal 403 "Access denied to other doctor analytics".
Proof.
  apply (doctor_ownership_before_existence Sample.clock Sample.db Sample.db
           Sample.doctor "64b7f0c2a1d3e4f5a6b7c8d2"); [reflexivity|discriminate|discriminate].
Defined.

(** C2, as the code has it: a caller with role ['doctor'] who requests a
    doctor id other than their own is answered 403; a caller the ownership
    check lets through (any other role, or a doctor requesting their own
    id) who requests a well-formed id, one the query casts to an
    [ObjectId], under which no user with role ['doctor'] exists is answered
    404; and for a caller with role ['doctor'] leaving the parameter out is
    the same as giving their own id. *)
Theorem doctor_access_branches (clock : Date.clock) (db : Store) (user : Jwt.payload) :
  (forall d, Jwt.role user = "doctor" -> d <> "" -> d <> Jwt.userIdString user ->
     getDoctor clock db (Bearer user) (Some d) =
       refusal 403 "Access denied to other doctor analytics")
  /\ (forall d id, d <> "" ->
        Jwt.role user <> "doctor" \/ d = Jwt.userIdString user ->
        ObjectId.cast d = Some id ->
        (forall u, In u (users db) -> User._id u = id -> User.role u <> "doctor") ->
        getDoctor clock db (Bearer user) (Some d) = refusal 404 "Doctor not found")
  /\ (Jwt.role user = "doctor" ->
        getDoctor clock db (Bearer user) None =
        getDoctor clock db (Bearer user) (Some (Jwt.userIdString user))).
Proof.
  split; [|split].
  - intros d. apply getDoctor_foreign.
  - intros d id. apply getDoctor_unknown.
  - apply getDoctor_default.
Qed.

Lemma doctor_access_branches_witness :
  getDoctor Sample.clock Sample.db (Bearer Sample.doctor)
            (Some "64b7f0c2a1d3e4f5a6b7c8d2") =
    refusal 403 "Access denied to other doctor analytics"
  /\ getDoctor Sample.clock Sample.db (Bearer Sample.admin)
               (Some "64b7f0c2a1d3e4f5a6b7c8d2") =
       refusal 404 "Doctor not found"
  /\ getDoctor Sample.clock Sample.db (Bearer Sample.doctor) None =
     getDoctor Sample.clock Sample.db (Bearer Sample.doctor)
               (Some "64b7f0c2a1d3e4f5a6b7c8d1").
Proof.
  destruct (doctor_access_branches Sample.clock Sample.db Sample.doctor)
    as [Hforeign [_ Hdefault]].
  destruct (doctor_access_branches Sample.clock Sample.db Sample.admin)
    as [_ [Hunknown _]].
  split; [|split].
  - apply Hforeign; [reflexivity|discriminate|discriminate].
  - apply (Hunknown _ Sample.otherId); [discriminate|left; discriminate|reflexivity|].
    intros u [<-|[<-|[]]]; discriminate.
  - apply Hdefault. reflexivity.
Defined.

(** C2 as stated fails: a doctor who requests a well-formed id under which
    no doctor exists, and which is not their own, is answered 403 and not
    404. *)
Lemma doctor_unknown_foreign_id_is_403 :
  ~ (forall (clock : Date.clock) (db : Store) (user : Jwt.payload) (d : string)
            (id : ObjectId.t),
       ObjectId.cast d = Some id ->
       (forall u, In u (users db) -> User._id u = id -> User.role u <> "doctor") ->
       status (getDoctor clock db (Bearer user) (Some d)) = 404).
Proof.
  intros Hclaim.
  specialize (Hclaim Sample.clock Sample.db Sample.doctor "64b7f0c2a1d3e4f5a6b7c8d2"
                     Sample.otherId eq_refl).
  assert (Hnone : forall u, In u (users Sample.db) -> User._id u = Sample.otherId ->
                            User.role u <> "doctor")
    by (intros u [<-|[<-|[]]]; discriminate).
  specialize (Hclaim Hnone). vm_compute in Hclaim. discriminate.
Qed.

(** C1, evaluated: a caller with role ['patient'] who names an existing
    doctor is answered 200 with that doctor's analytics, the doctor's
    patients included, while the sibling route [/overview] answers the same
    caller 403. *)
Theorem patient_reads_doctor_analytics :
  (exists a,
     getDoctor Sample.clock Sample.db (Bearer Sample.patient)
               (Some "64b7f0c2a1d3e4f5a6b7c8d1") =
       {| status := 200; json := DoctorJson a |}
     /\ DoctorCard._id (Doctor.doctor a) = Sample.doctorId
     /\ Doctor.totalAnalyses a = 2%nat
     /\ map PatientCard.medical_record_number (Doctor.recentPatients a) = [Some "MRN001"])
  /\ getOverview Sample.clock Sample.db (Bearer Sample.patient) =
       refusal 403 "Insufficient permissions".
Proof.
  split; [|reflexivity].
  eexists. split; [vm_compute; reflexivity|].
  repeat split.
Qed.

(** ** [POST /ai-performance] *)

Section UpsertFacts.

Lemma findOneAndUpdate_In {A : Type} (filter : A -> bool) (update : A -> A) (inserted : A)
    (docs : list A) (d : A) :
  In d (findOneAndUpdate filter update inserted docs) ->
  d = inserted \/ (exists x, In x docs /\ filter x = true /\ d = update x) \/ In d docs.
Proof.
  induction docs as [|x docs IH]; simpl.
  - intros [<-|[]]. now left.
  - destruct (filter x) eqn:Hx; simpl.
    + intros [<-|Hd]; [right; left; exists x|]; auto.
    + intros [<-|Hd]; [auto|].
      destruct (IH Hd) as [->|[[y [Hy [Hf ->]]]|Hin]]; [auto| |auto].
      right; left. exists y. auto.
Qed.

(** When the filter catches every document of a class that holds at most
    one, and an update keeps a document in the class, an upsert leaves
    exactly one document in the class: the one that was there, updated, or
    the inserted one. *)
Lemma upsert_single {A : Type} (filter class : A -> bool) (update : A -> A) (inserted : A)
    (docs : list A) :
  class inserted = true ->
  (forall d, filter d = true -> class d = true /\ class (update d) = true) ->
  (forall d, In d docs -> class d = true -> filter d = true) ->
  (length (List.filter class docs) <= 1)%nat ->
  List.filter class (findOneAndUpdate filter update inserted docs) =
    [match List.filter class docs with
     | d :: _ => update d
     | [] => inserted
     end].
Proof.
  intros Hnew Hsub Hcaught. induction docs as [|x docs IH]; intros Hone; simpl.
  - now rewrite Hnew.
  - destruct (filter x) eqn:Hx; simpl.
    + destruct (Hsub x Hx) as [Hcx Hcu]. rewrite Hcu, Hcx. f_equal.
      simpl in Hone. rewrite Hcx in Hone. simpl in Hone.
      destruct (List.filter class docs); [reflexivity|simpl in Hone; lia].
    + assert (Hcx : class x = false).
      { destruct (class x) eqn:Hcx; [|reflexivity].
        rewrite (Hcaught x) in Hx by (trivial; now left). discriminate. }
      rewrite Hcx. apply IH.
      * intros d Hd. apply Hcaught. now right.
      * simpl in Hone. now rewrite Hcx in Hone.
Qed.

Lemma sameVersionToday_onLocalDay clock mv row :
  sameVersionToday clock mv row = true -> onLocalDay clock mv row = true.
Proof.
  unfold sameVersionToday, onLocalDay, sameVersion.
  rewrite !andb_true_iff. intros [[Hv Hlo] Hhi]. repeat split; trivial. lia.
Qed.

Lemma onLocalDay_sameVersionToday clock mv row :
  onLocalDay clock mv row = true ->
  AIModelPerformance.evaluation_date row < Date.endOfDay clock ->
  sameVersionToday clock mv row = true.
Proof.
  unfold sameVersionToday, onLocalDay, sameVersion.
  rewrite !andb_true_iff. intros [[Hv Hlo] Hhi] Hend. repeat split; trivial. lia.
Qed.

Lemma admission_inr (auth : authorization) (body : PerformanceUpdate.t) :
  admission auth body = inr tt ->
  truthyString (PerformanceUpdate.modelVersion body) = true
  /\ truthyNumber (PerformanceUpdate.accuracyRate body) = true.
Proof.
  unfold admission. destruct (authenticateToken auth); [discriminate|].
  destruct (requireRole _ _); [discriminate|].
  destruct (truthyString _), (truthyNumber _); simpl; try discriminate. now split.
Qed.

(** The guards refuse with 401, 403 or 400. *)
Lemma admission_inl (auth : authorization) (body : PerformanceUpdate.t) (r : response) :
  admission auth body = inl r -> status r = 401 \/ status r = 403 \/ status r = 400.
Proof.
  unfold admission, authenticateToken, requireRole, refuse.
  destruct auth as [| |user]; try (intros [= <-]; cbn; auto).
  destruct (includes _ _); [|intros [= <-]; cbn; auto].
  destruct (negb _ || negb _); [intros [= <-]; cbn; auto|discriminate].
Qed.

Lemma truthyString_value (s : Field.t string) :
  truthyString s = true -> exists v, s = Field.Value v /\ v <> "".
Proof.
  destruct s as [| |v]; try discriminate. cbn [truthyString].
  intros Hv%negb_true_iff%String.eqb_neq. eauto.
Qed.

Lemma truthyNumber_value (x : Field.t float) :
  truthyNumber x = true -> exists v, x = Field.Value v.
Proof. destruct x as [| |v]; try discriminate. eauto. Qed.

(** A row just written is of the version of the call and dated at its
    instant. *)
Lemma updateFrom_onLocalDay (day clock : Date.clock) (body : PerformanceUpdate.t)
    (row : AIModelPerformance.doc) :
  truthyString (PerformanceUpdate.modelVersion body) = true ->
  Date.startOfDay day <= Date.now clock <= Date.endOfDay day ->
  onLocalDay day (PerformanceUpdate.modelVersion body) (updateFrom clock body row) = true.
Proof.
  intros [v [Hv _]]%truthyString_value Hnow. unfold onLocalDay, sameVersion, updateFrom.
  cbn [AIModelPerformance.model_version AIModelPerformance.evaluation_date].
  rewrite Hv. cbn [assign]. rewrite String.eqb_refl. cbn [andb].
  apply andb_true_iff. split; lia.
Qed.

Lemma postAIPerformance_accepted clock auth body server :
  admission auth body = inr tt -> castUpdate body = true ->
  postAIPerformance clock auth body server =
    (send (Message "AI model performance updated successfully"),
     {| store := upsertPerformance clock body (store server);
        activeConnections :=
          broadcastUpdate "ai_performance_updated" (eventOf body) None
                          (activeConnections server) |}).
Proof. intros Hok Hcast. unfold postAIPerformance. now rewrite Hok, Hcast. Qed.

Lemma postAIPerformance_refused clock auth body server r :
  admission auth body = inl r ->
  postAIPerformance clock auth body server = (r, server).
Proof. intros Hno. unfold postAIPerformance. now rewrite Hno. Qed.

(** A call is answered 200 only past the guards and the casts. *)
Lemma postAIPerformance_200 clock auth body server :
  status (fst (postAIPerformance clock auth body server)) = 200 ->
  admission auth body = inr tt /\ castUpdate body = true.
Proof.
  unfold postAIPerformance. destruct (admission auth body) as [r|[]] eqn:E.
  - cbn [fst]. intros Hs. apply admission_inl in E. lia.
  - destruct (castUpdate body); [now split|cbn; discriminate].
Qed.

(** A body that holds every key overwrites the whole row. *)
Lemma updateFrom_complete clock body row row' :
  complete body = true -> updateFrom clock body row = updateFrom clock body row'.
Proof.
  unfold complete, updateFrom. rewrite !andb_true_iff.
  intros [[[[[[H1 H2] H3] H4] H5] H6] H7].
  destruct body as [mv a p r f t c]. cbn in *.
  destruct mv, a, p, r, f, t, c; try discriminate; reflexivity.
Qed.

End UpsertFacts.

(** C9: [POST /ai-performance] leaves the server as it was (no row is
    written, nothing is sent on any socket) whenever [modelVersion] or
    [accuracyRate] is absent or falsy, and answers an admin caller 400 with
    ['Model version and accuracy rate are required']; an absent field,
    [null], the empty string and the number 0 are all falsy. *)
Theorem post_rejects_falsy_fields :
  truthyString Field.Undefined = false /\ truthyString Field.Null = false
  /\ truthyString (Field.Value "") = false
  /\ truthyNumber Field.Undefined = false /\ truthyNumber Field.Null = false
  /\ truthyNumber (Field.Value 0%float) = false
  /\ forall (clock : Date.clock) (auth : authorization) (body : PerformanceUpdate.t)
            (server : Server),
       truthyString (PerformanceUpdate.modelVersion body) = false
       \/ truthyNumber (PerformanceUpdate.accuracyRate body) = false ->
       snd (postAIPerformance clock auth body server) = server
       /\ forall user, auth = Bearer user -> Jwt.role user = "admin" ->
            fst (postAIPerformance clock auth body server) =
              refusal 400 "Model version and accuracy rate are required".
Proof.
  repeat (split; [reflexivity|]).
  intros clock auth body server Hfalsy.
  assert (Hguard : negb (truthyString (PerformanceUpdate.modelVersion body))
                   || negb (truthyNumber (PerformanceUpdate.accuracyRate body)) = true).
  { destruct Hfalsy as [-> | ->]; [reflexivity|apply orb_true_r]. }
  split.
  - destruct (admission auth body) as [r|[]] eqn:E.
    + now rewrite (postAIPerformance_refused _ _ _ _ r).
    + apply admission_inr in E as [Hmv Hacc]. rewrite Hmv, Hacc in Hguard. discriminate.
  - intros user -> Hrole.
    rewrite (postAIPerformance_refused _ _ _ _
               (refusal 400 "Model version and accuracy rate are required"));
      [reflexivity|].
    unfold admission, authenticateToken, requireRole. rewrite Hrole.
    cbn [includes existsb String.eqb Ascii.eqb Bool.eqb andb orb]. now rewrite Hguard.
Qed.

Lemma post_rejects_falsy_fields_witness :
  postAIPerformance Sample.morning (Bearer Sample.admin) Sample.zeroAccuracy Sample.server =
    (refusal 400 "Model version and accuracy rate are required", Sample.server).
Proof.
  destruct post_rejects_falsy_fields as [_ [_ [_ [_ [_ [_ Hpost]]]]]].
  destruct (Hpost Sample.morning (Bearer Sample.admin) Sample.zeroAccuracy Sample.server
              (or_intror eq_refl)) as [Hserver Hanswer].
  specialize (Hanswer Sample.admin eq_refl eq_refl).
  rewrite (surjective_pairing (postAIPerformance _ _ _ _)).
  now rewrite Hserver, Hanswer.
Defined.

(** C5, as the code has it: take two [POST /ai-performance] calls that are
    answered 200, with the same [modelVersion], both within one calendar
    day of the server's local time as the filter delimits it (the same
    first and last millisecond for both requests), the first of them before
    that day's last millisecond, on a store that holds at most one row for
    that model version and local day and none dated at that last
    millisecond. After the first call the store holds exactly one row for
    that model version and day: the row that was there, or else the
    schema's defaults, with the keys of the first body assigned. After the
    second it still holds exactly one, that row with the keys of the
    second body assigned: it is dated at the second call's instant, a key
    the second body holds has the second call's value, and a key it leaves
    out keeps what the first call left. When the second body holds every
    key, the row is the second call's values throughout. *)
Theorem upsert_once_per_local_day
    (first second : Date.clock) (auth1 auth2 : authorization)
    (body1 body2 : PerformanceUpdate.t) (server : Server) :
  let version := PerformanceUpdate.modelVersion body1 in
  let today := onLocalDay first version in
  let rows := aimodelperformances (store server) in
  let after1 := postAIPerformance first auth1 body1 server in
  let after2 := postAIPerformance second auth2 body2 (snd after1) in
  let before :=
    match List.filter today rows with
    | row :: _ => row
    | [] => schemaDefaults first
    end in
  let row1 := updateFrom first body1 before in
  let row2 := updateFrom second body2 row1 in
  status (fst after1) = 200 ->
  status (fst after2) = 200 ->
  PerformanceUpdate.modelVersion body2 = version ->
  Date.startOfDay second = Date.startOfDay first ->
  Date.endOfDay second = Date.endOfDay first ->
  Date.startOfDay first <= Date.now first < Date.endOfDay first ->
  Date.startOfDay first <= Date.now second <= Date.endOfDay first ->
  (length (List.filter today rows) <= 1)%nat ->
  (forall row, In row rows -> today row = true ->
               AIModelPerformance.evaluation_date row < Date.endOfDay first) ->
  List.filter today (aimodelperformances (store (snd after1))) = [row1]
  /\ List.filter today (aimodelperformances (store (snd after2))) = [row2]
  /\ AIModelPerformance.evaluation_date row2 = Date.now second
  /\ (exists v, version = Field.Value v /\ AIModelPerformance.model_version row2 = Some v)
  /\ (exists x, PerformanceUpdate.accuracyRate body2 = Field.Value x
                /\ AIModelPerformance.accuracy_rate row2 = Some x)
  /\ AIModelPerformance.precision_rate row2 =
       assign (PerformanceUpdate.precisionRate body2) (AIModelPerformance.precision_rate row1)
  /\ AIModelPerformance.recall_rate row2 =
       assign (PerformanceUpdate.recallRate body2) (AIModelPerformance.recall_rate row1)
  /\ AIModelPerformance.f1_score row2 =
       assign (PerformanceUpdate.f1Score body2) (AIModelPerformance.f1_score row1)
  /\ AIModelPerformance.total_predictions row2 =
       assign (PerformanceUpdate.totalPredictions body2)
              (AIModelPerformance.total_predictions row1)
  /\ AIModelPerformance.correct_predictions row2 =
       assign (PerformanceUpdate.correctPredictions body2)
              (AIModelPerformance.correct_predictions row1)
  /\ (complete body2 = true -> forall row, row2 = updateFrom second body2 row).
Proof.
  intros version today rows after1 after2 before row1 row2
         Hs1 Hs2 Hsame Hstart Hend Hfirst Hsecond Hone Hnotlast.
  subst after2 after1.
  destruct (postAIPerformance_200 _ _ _ _ Hs1) as [Hok1 Hcast1].
  rewrite (postAIPerformance_accepted first) in Hs2 |- * by assumption.
  cbn [fst snd] in Hs2 |- *.
  destruct (postAIPerformance_200 _ _ _ _ Hs2) as [Hok2 Hcast2].
  rewrite (postAIPerformance_accepted second) by assumption.
  cbn [fst snd store upsertPerformance aimodelperformances].
  apply admission_inr in Hok1 as [Hmv1 _]. apply admission_inr in Hok2 as [Hmv2 Hacc2].
  rewrite Hsame. fold version. fold rows.
  assert (Hfilter : sameVersionToday second version = sameVersionToday first version).
  { unfold sameVersionToday. now rewrite Hstart, Hend. }
  rewrite Hfilter.
  set (rows1 := findOneAndUpdate (sameVersionToday first version)
                  (updateFrom first body1) (updateFrom first body1 (schemaDefaults first))
                  rows).
  assert (Hkept : forall clock body d,
            PerformanceUpdate.modelVersion body = version ->
            Date.startOfDay first <= Date.now clock <= Date.endOfDay first ->
            today (updateFrom clock body d) = true).
  { intros clock body d Hv Hnow. subst today. rewrite <- Hv.
    apply updateFrom_onLocalDay; [|exact Hnow]. rewrite Hv. exact Hmv1. }
  assert (Hrows1 : List.filter today rows1 = [row1]).
  { subst rows1 row1 before. rewrite (upsert_single _ today).
    - now destruct (List.filter today rows).
    - apply Hkept; [reflexivity|lia].
    - intros d Hd. split; [now apply sameVersionToday_onLocalDay|].
      apply Hkept; [reflexivity|lia].
    - intros d Hd Hon. apply onLocalDay_sameVersionToday; auto.
    - exact Hone. }
  split; [exact Hrows1|]. split.
  - rewrite (upsert_single _ today).
    + now rewrite Hrows1.
    + now apply Hkept.
    + intros d Hd. split; [now apply sameVersionToday_onLocalDay|]. now apply Hkept.
    + intros d Hd Hon. apply onLocalDay_sameVersionToday; [exact Hon|].
      apply findOneAndUpdate_In in Hd as [->|[[x [_ [_ ->]]]|Hd]];
        [cbn; lia|cbn; lia|auto].
    + now rewrite Hrows1.
  - split; [reflexivity|]. split.
    + apply truthyString_value in Hmv1 as [v [Hv _]]. exists v. split; [exact Hv|].
      subst row2. cbn [updateFrom AIModelPerformance.model_version].
      rewrite Hsame. unfold version. now rewrite Hv.
    + split.
      * apply truthyNumber_value in Hacc2 as [x Hx]. exists x. split; [exact Hx|].
        subst row2. cbn [updateFrom AIModelPerformance.accuracy_rate]. now rewrite Hx.
      * repeat (split; [reflexivity|]).
        intros Hcomplete row. now apply updateFrom_complete.
Qed.

(** A full update in the morning and one that gives the required fields
    only in the afternoon: the one row holds the afternoon's accuracy and
    the morning's counts. *)
Lemma upsert_once_per_local_day_witness :
  List.filter (onLocalDay Sample.morning (Field.Value "DeiT+ResNet18-v1.0"))
    (aimodelperformances
       (store (snd (postAIPerformance Sample.afternoon (Bearer Sample.admin)
                      (Sample.accuracyOnly 0.99)
                      (snd (postAIPerformance Sample.morning (Bearer Sample.admin)
                              (Sample.update 10000) Sample.server))))))
  = [ {| AIModelPerformance.model_version := Some "DeiT+ResNet18-v1.0";
         AIModelPerformance.accuracy_rate := Some 0.99%float;
         AIModelPerformance.precision_rate := Some 0.9823%float;
         AIModelPerformance.recall_rate := Some 0.9867%float;
         AIModelPerformance.f1_score := Some 0.9845%float;
         AIModelPerformance.total_predictions := Some 10000%float;
         AIModelPerformance.correct_predictions := Some 9845%float;
         AIModelPerformance.evaluation_date := Date.now Sample.afternoon |} ].
Proof.
  assert (Hfirst : Date.startOfDay Sample.morning <= Date.now Sample.morning
                   < Date.endOfDay Sample.morning) by (vm_compute; split; congruence).
  assert (Hsecond : Date.startOfDay Sample.morning <= Date.now Sample.afternoon
                    <= Date.endOfDay Sample.morning) by (vm_compute; split; congruence).
  assert (Hone : (length (List.filter
                            (onLocalDay Sample.morning (Field.Value "DeiT+ResNet18-v1.0"))
                            (aimodelperformances (store Sample.server))) <= 1)%nat)
    by (vm_compute; lia).
  destruct (upsert_once_per_local_day Sample.morning Sample.afternoon
              (Bearer Sample.admin) (Bearer Sample.admin)
              (Sample.update 10000) (Sample.accuracyOnly 0.99) Sample.server
              eq_refl eq_refl eq_refl eq_refl eq_refl Hfirst Hsecond Hone
              (fun row (Hrow : In row []) => match Hrow with end))
    as [_ [Hrow2 _]].
  exact Hrow2.
Defined.

(** C5 as stated fails on a server whose local time is not UTC: two
    calls answered 200 with the same [modelVersion] at 21:00 and at 23:00
    UTC of one UTC day, on a server two hours east of UTC and an empty
    collection, leave two rows of that model version dated on that UTC
    day. *)
Lemma upsert_twice_within_utc_day :
  let after1 :=
    postAIPerformance Sample.eastEvening (Bearer Sample.admin) (Sample.update 10000)
                      Sample.server in
  let after2 :=
    postAIPerformance Sample.eastNight (Bearer Sample.admin) (Sample.update 20000)
                      (snd after1) in
  utcDay (Date.now Sample.eastEvening) = utcDay (Date.now Sample.eastNight)
  /\ status (fst after1) = 200 /\ status (fst after2) = 200
  /\ List.filter (onUtcDay (utcDay (Date.now Sample.eastEvening))
                           (Field.Value "DeiT+ResNet18-v1.0"))
                 (aimodelperformances (store (snd after2)))
     = [updateFrom Sample.eastEvening (Sample.update 10000)
                   (schemaDefaults Sample.eastEvening);
        updateFrom Sample.eastNight (Sample.update 20000)
                   (schemaDefaults Sample.eastNight)].
Proof. vm_compute. repeat split. Qed.

(** The filter's upper bound is exclusive: a row written in the last
    millisecond of a day is not found again on that day, so a second call in
    that millisecond adds a second row. *)
Lemma upsert_twice_at_last_millisecond :
  let after1 :=
    postAIPerformance Sample.lastMillisecond (Bearer Sample.admin) (Sample.update 10000)
                      Sample.server in
  let after2 :=
    postAIPerformance Sample.lastMillisecond (Bearer Sample.admin) (Sample.update 20000)
                      (snd after1) in
  List.filter (onLocalDay Sample.lastMillisecond (Field.Value "DeiT+ResNet18-v1.0"))
              (aimodelperformances (store (snd after2)))
  = [updateFrom Sample.lastMillisecond (Sample.update 10000)
                (schemaDefaults Sample.lastMillisecond);
     updateFrom Sample.lastMillisecond (Sample.update 20000)
                (schemaDefaults Sample.lastMillisecond)].
Proof. vm_compute. reflexivity. Qed.
(** * Further properties of the routes *)

(** ** Stages, continued *)

Lemma sum_list_with_map {A B : Type} (f : B -> nat) (g : A -> B) (l : list A) :
  sum_list_with f (map g l) = sum_list_with (fun a => f (g a)) l.
Proof. induction l as [|a l IH]; simpl; [reflexivity|now rewrite IH]. Qed.

Lemma sum_list_with_ext {A : Type} (f g : A -> nat) (l : list A) :
  (forall a, f a = g a) -> sum_list_with f l = sum_list_with g l.
Proof. intros Hfg. induction l as [|a l IH]; simpl; [reflexivity|now rewrite Hfg, IH]. Qed.

Section StageTotals.
Context {A : Type}.

(** The groups of [$group] share out the input: their sizes add up to the
    number of documents. *)
Lemma group_by_total `{Countable K} (key : A -> K) (docs : list A) :
  sum_list_with (fun g => length (snd g)) (group_by key docs) = length docs.
Proof.
  unfold group_by. induction docs as [|d docs IH]; simpl.
  - now rewrite map_to_list_empty.
  - set (m := group_map key docs) in *.
    destruct (m !! key d) as [g|] eqn:E; cbn [default from_option id].
    + rewrite <- insert_delete_eq.
      rewrite map_to_list_insert by apply lookup_delete_eq.
      rewrite <- (map_to_list_delete m (key d) g E) in IH.
      simpl in *. lia.
    + rewrite map_to_list_insert by exact E. simpl. lia.
Qed.

Lemma countBy_total `{Countable K} (key : A -> K) (docs : list A) :
  sum_list_with snd (countBy key docs) = length docs.
Proof.
  unfold countBy. rewrite sum_list_with_map. apply group_by_total.
Qed.

Lemma histogram_total `{Countable K} {E : Type} (project : K * nat -> E)
    (entryCount : E -> nat) (key : A -> K) (docs : list A) :
  (forall g, entryCount (project g) = snd g) ->
  sum_list_with entryCount (histogram project key docs) = length docs.
Proof.
  intros Hcount. unfold histogram.
  rewrite sum_list_with_map, (sum_list_with_ext _ snd) by exact Hcount.
  rewrite sort_by_Permutation. apply countBy_total.
Qed.

(** [$sort] with any strict order: no document of the output goes strictly
    ahead of the one before it. *)
Lemma insert_by_Sorted (ahead : A -> A -> bool) (x : A) (l : list A) :
  (forall a b, ahead a b = true -> ahead b a = false) ->
  Sorted (fun a b => ahead b a = false) l ->
  Sorted (fun a b => ahead b a = false) (insert_by ahead x l).
Proof.
  intros Hasym. induction 1 as [|y l Hl IH Hy]; simpl.
  - repeat constructor.
  - destruct (ahead y x) eqn:E.
    + constructor; [exact IH|].
      destruct l as [|z l]; simpl.
      * constructor. now apply Hasym.
      * destruct (ahead z x); constructor; [now inversion Hy|now apply Hasym].
    + constructor; [now constructor|]. now constructor.
Qed.

Lemma sort_by_Sorted (ahead : A -> A -> bool) (l : list A) :
  (forall a b, ahead a b = true -> ahead b a = false) ->
  Sorted (fun a b => ahead b a = false) (sort_by ahead l).
Proof.
  intros Hasym. induction l as [|x l IH]; simpl; [constructor|].
  now apply insert_by_Sorted.
Qed.




End StageTotals.

(** ** [GET /overview], continued *)

Lemma filter_andb {A : Type} (f g : A -> bool) (l : list A) :
  List.filter (fun a => f a && g a) l = List.filter f (List.filter g l).
Proof.
  induction l as [|a l IH]; simpl; [reflexivity|].
  destruct (g a); simpl; rewrite ?andb_true_r, ?andb_false_r; [|exact IH].
  destruct (f a); now rewrite IH.
Qed.

Lemma group_by_nil {A : Type} `{Countable K} (key : A -> K) : group_by key [] = [].
Proof. unfold group_by. simpl. apply map_to_list_empty. Qed.

Lemma histogram_nil {A E : Type} `{Countable K} (project : K * nat -> E) (key : A -> K) :
  histogram project key [] = [].
Proof. unfold histogram, countBy. now rewrite group_by_nil. Qed.

(** X1: in a [GET /overview] response the counts of each histogram add up
    to the number of analyses its [$match] stage lets through, and every
    entry's count is the number of those analyses that carry the entry's
    key, which is at least one. *)
Theorem overview_histogram_counts
    (clock : Date.clock) (db : Store) (auth : authorization) (a : Overview.analytics) :
  json (getOverview clock db auth) = OverviewJson a ->
  exists user, auth = Bearer user
  /\ sum_list_with ConditionCount.count (Overview.conditionDistribution a)
     = length (conditionMatch db user)
  /\ sum_list_with SeverityCount.count (Overview.severityDistribution a)
     = length (severityMatch db user)
  /\ (forall e, In e (Overview.conditionDistribution a) ->
        (1 <= ConditionCount.count e)%nat
        /\ ConditionCount.count e
           = length (filter (fun d => RetinalAnalysis.condition_detected d
                                      = ConditionCount.condition_detected e)
                            (conditionMatch db user)))
  /\ (forall e, In e (Overview.severityDistribution a) ->
        (1 <= SeverityCount.count e)%nat
        /\ SeverityCount.count e
           = length (filter (fun d => RetinalAnalysis.severity_level d
                                      = SeverityCount.severity_level e)
                            (severityMatch db user))).
Proof.
  intros [user [-> [_ ->]]]%getOverview_inv. exists user.
  split; [reflexivity|].
  cbn [overviewAnalytics Overview.conditionDistribution Overview.severityDistribution].
  unfold conditionStages, severityStages.
  split; [now apply histogram_total|]. split; [now apply histogram_total|]. split.
  - intros e He.
    apply (histogram_entry conditionProject ConditionCount.condition_detected
             ConditionCount.count (fun _ => eq_refl) (fun _ => eq_refl)) in He
      as [_ [Hn Hpos]].
    split; [lia|exact Hn].
  - intros e He.
    apply (histogram_entry severityProject SeverityCount.severity_level
             SeverityCount.count (fun _ => eq_refl) (fun _ => eq_refl)) in He
      as [_ [Hn Hpos]].
    split; [lia|exact Hn].
Qed.

Lemma overview_histogram_counts_witness :
  sum_list_with ConditionCount.count
    (Overview.conditionDistribution (overviewAnalytics Sample.clock Sample.db Sample.admin))
  = 2%nat.
Proof.
  destruct (overview_histogram_counts Sample.clock Sample.db (Bearer Sample.admin)
              (overviewAnalytics Sample.clock Sample.db Sample.admin) eq_refl)
    as [user [Hauth [Hsum _]]].
  injection Hauth as <-. rewrite Hsum. reflexivity.
Defined.

(** What the [countDocuments] queries of a doctor count. *)
Lemma counted_doctor (user : Jwt.payload) (l : list RetinalAnalysis.doc) :
  Jwt.role user = "doctor" ->
  List.filter (counted user) l
  = filter (fun d => RetinalAnalysis.doctor_id d = Jwt.userId user) l.
Proof.
  intros Hrole. induction l as [|x l IH]; [reflexivity|].
  cbn [List.filter]. rewrite IH.
  destruct (decide (RetinalAnalysis.doctor_id x = Jwt.userId user)) as [Hx|Hx].
  - rewrite filter_cons_True by exact Hx.
    assert (Hc : counted user x = true) by (apply counted_iff; auto).
    now rewrite Hc.
  - rewrite filter_cons_False by exact Hx.
    destruct (counted user x) eqn:Hc; [|reflexivity].
    rewrite counted_iff in Hc. now destruct (Hx (Hc Hrole)).
Qed.

Lemma own_doctor (user : Jwt.payload) (l : list Patient.doc) :
  Jwt.role user = "doctor" ->
  List.filter (fun p => own user (Patient.doctor_id p)) l
  = filter (fun p => Patient.doctor_id p = Some (Jwt.userId user)) l.
Proof.
  intros Hrole. induction l as [|x l IH]; [reflexivity|].
  cbn [List.filter]. rewrite IH. unfold own. rewrite Hrole.
  cbn [String.eqb Ascii.eqb Bool.eqb andb].
  destruct (decide (Patient.doctor_id x = Some (Jwt.userId user))) as [Hx|Hx].
  - rewrite filter_cons_True by exact Hx. rewrite Hx. cbn [Bson.ofId Bson.eqb].
    now rewrite oid_eqb_refl.
  - rewrite filter_cons_False by exact Hx.
    destruct (Patient.doctor_id x) as [d|]; cbn [Bson.ofId Bson.eqb]; [|reflexivity].
    destruct (ObjectId.eqb d (Jwt.userId user)) eqn:Hd; [|reflexivity].
    apply oid_eqb_eq in Hd. subst d. now destruct Hx.
Qed.

(** X2: the totals of [GET /overview] are nested: the analyses of the last
    thirty days are among the caller's analyses, which are among all
    analyses. A caller whose role is not ['doctor'] counts every analysis and
    every patient; a doctor counts the analyses and the patients whose
    [doctor_id] is the doctor's own id. *)
Theorem overview_totals (clock : Date.clock) (db : Store) (user : Jwt.payload) :
  let a := overviewAnalytics clock db user in
  (Overview.recentAnalyses a <= Overview.totalAnalyses a)%nat
  /\ (Overview.totalAnalyses a <= length (retinalanalyses db))%nat
  /\ (Overview.totalPatients a <= length (patients db))%nat
  /\ (Jwt.role user <> "doctor" ->
        Overview.totalAnalyses a = length (retinalanalyses db)
        /\ Overview.totalPatients a = length (patients db))
  /\ (Jwt.role user = "doctor" ->
        Overview.totalAnalyses a
        = length (filter (fun d => RetinalAnalysis.doctor_id d = Jwt.userId user)
                         (retinalanalyses db))
        /\ Overview.totalPatients a
           = length (filter (fun p => Patient.doctor_id p = Some (Jwt.userId user))
                            (patients db))).
Proof.
  cbn [overviewAnalytics Overview.recentAnalyses Overview.totalAnalyses
       Overview.totalPatients]. cbv zeta.
  split; [rewrite filter_andb; apply List.filter_length_le|].
  split; [apply List.filter_length_le|].
  split; [apply List.filter_length_le|].
  split.
  - intros Hrole. split; f_equal; apply filter_all_intro; intros x _.
    + apply counted_iff. intros Hr. contradiction.
    + unfold own. apply String.eqb_neq in Hrole. now rewrite Hrole.
  - intros Hrole. split; f_equal; [now apply counted_doctor|now apply own_doctor].
Qed.

Lemma overview_totals_witness :
  Overview.totalAnalyses (overviewAnalytics Sample.clock Sample.db Sample.admin) = 2%nat
  /\ Overview.totalPatients (overviewAnalytics Sample.clock Clinic.db Sample.doctor) = 1%nat.
Proof.
  destruct (overview_totals Sample.clock Sample.db Sample.admin)
    as [_ [_ [_ [Hall _]]]].
  destruct (overview_totals Sample.clock Clinic.db Sample.doctor)
    as [_ [_ [_ [_ Hown]]]].
  split.
  - apply (Hall ltac:(discriminate)).
  - destruct (Hown eq_refl) as [_ Hpatients]. rewrite Hpatients. reflexivity.
Defined.


(** X4: on a store without analyses [GET /overview] answers an allowed
    caller with zero counts, empty histograms and series, the average
    ['0.0000'] and, for an admin, an empty leaderboard. *)
Theorem overview_without_analyses
    (clock : Date.clock) (db : Store) (user : Jwt.payload) :
  retinalanalyses db = [] ->
  Jwt.role user = "admin" \/ Jwt.role user = "doctor" ->
  exists a,
    getOverview clock db (Bearer user) = send (OverviewJson a)
    /\ Overview.totalAnalyses a = O /\ Overview.recentAnalyses a = O
    /\ Overview.conditionDistribution a = []
    /\ Overview.severityDistribution a = []
    /\ Overview.monthlyTrends a = []
    /\ Overview.averageConfidence a = Num.Digits "0.0000"
    /\ (Jwt.role user = "admin" -> Overview.topDoctors a = Some []).
Proof.
  intros Hdb Hrole. exists (overviewAnalytics clock db user).
  split; [now apply getOverview_granted|].
  cbn [overviewAnalytics Overview.totalAnalyses Overview.recentAnalyses
       Overview.conditionDistribution Overview.severityDistribution
       Overview.monthlyTrends Overview.averageConfidence Overview.topDoctors].
  unfold conditionMatch, severityMatch, trendMatch, confidenceMatch, topDoctorsPipeline.
  rewrite Hdb. cbn [List.filter length].
  unfold conditionStages, severityStages, trendStages, byMonth, histogram, countBy.
  rewrite !group_by_nil. repeat (split; [reflexivity|]).
  intros ->. reflexivity.
Qed.

Lemma overview_without_analyses_witness :
  exists a,
    getOverview Sample.clock
      {| users := users Sample.db; patients := patients Sample.db;
         retinalanalyses := []; aimodelperformances := [] |}
      (Bearer Sample.admin) = send (OverviewJson a)
    /\ Overview.averageConfidence a = Num.Digits "0.0000"
    /\ Overview.topDoctors a = Some [].
Proof.
  destruct (overview_without_analyses Sample.clock
              {| users := users Sample.db; patients := patients Sample.db;
                 retinalanalyses := []; aimodelperformances := [] |}
              Sample.admin eq_refl (or_introl eq_refl))
    as [a [Ha [_ [_ [_ [_ [_ [Havg Htop]]]]]]]].
  exists a. split; [exact Ha|]. split; [exact Havg|]. apply Htop. reflexivity.
Defined.

(** X5: whatever the store holds, the four pipelines of [GET /overview]
    give a caller with role ['doctor'] nothing: both histograms and the
    monthly series are empty and the average is ['0.0000'], while the three
    counts, which [countDocuments] computes, are those of the doctor's own
    patients and analyses. *)
Theorem overview_doctor_pipelines_empty
    (clock : Date.clock) (db : Store) (user : Jwt.payload) :
  Jwt.role user = "doctor" ->
  exists a,
    getOverview clock db (Bearer user) = send (OverviewJson a)
    /\ Overview.conditionDistribution a = []
    /\ Overview.severityDistribution a = []
    /\ Overview.monthlyTrends a = []
    /\ Overview.averageConfidence a = Num.Digits "0.0000"
    /\ Overview.totalAnalyses a
       = length (filter (fun d => RetinalAnalysis.doctor_id d = Jwt.userId user)
                        (retinalanalyses db)).
Proof.
  intros Hrole. exists (overviewAnalytics clock db user).
  split; [apply getOverview_granted; now right|].
  cbn [overviewAnalytics Overview.conditionDistribution Overview.severityDistribution
       Overview.monthlyTrends Overview.averageConfidence Overview.totalAnalyses].
  unfold conditionMatch, severityMatch, trendMatch, confidenceMatch.
  rewrite !doctor_match_nil by exact Hrole.
  split; [apply histogram_nil|]. split; [apply histogram_nil|].
  split; [unfold trendStages, byMonth; now rewrite group_by_nil|].
  split; [reflexivity|]. f_equal. now apply counted_doctor.
Qed.

Lemma overview_doctor_pipelines_empty_witness :
  exists a,
    getOverview Sample.clock Sample.db (Bearer Sample.doctor) = send (OverviewJson a)
    /\ Overview.severityDistribution a = []
    /\ Overview.monthlyTrends a = []
    /\ Overview.totalAnalyses a = 2%nat.
Proof.
  destruct (overview_doctor_pipelines_empty Sample.clock Sample.db Sample.doctor eq_refl)
    as [a [Ha [_ [Hsev [Htrend [_ Htotal]]]]]].
  exists a. split; [exact Ha|]. split; [exact Hsev|]. split; [exact Htrend|].
  rewrite Htotal. reflexivity.
Defined.

(** ** Cutting a sorted list with [$limit] *)

Section Limit.
Context {A : Type}.
Variable key : A -> Z.

(** What [{ $sort: { key: -1 } }, { $limit: k }] keeps and what it drops:
    the kept documents stand in descending order, there are [k] of them
    unless the input is shorter, and no dropped document has a larger key
    than a kept one. *)
Lemma sort_limit_spec (k : nat) (l : list A) :
  let kept := take k (sort_by (descending key) l) in
  let dropped := drop k (sort_by (descending key) l) in
  Permutation (kept ++ dropped) l
  /\ length kept = Nat.min k (length l)
  /\ StronglySorted (fun a b => key b <= key a) kept
  /\ (forall a b, In a kept -> In b dropped -> key b <= key a).
Proof.
  cbv zeta. split; [|split; [|split]].
  - rewrite take_drop. apply sort_by_Permutation.
  - now rewrite length_take, sort_by_length.
  - apply StronglySorted_take, sort_descending.
  - intros a b Ha Hb.
    pose proof (sort_descending key l) as Hs.
    rewrite <- (take_drop k (sort_by (descending key) l)) in Hs.
    induction (take k (sort_by (descending key) l)) as [|x kept IH]; [destruct Ha|].
    simpl in Hs. inversion Hs as [|? ? Hs' Hall]; subst.
    destruct Ha as [<-|Ha]; [|now apply IH].
    rewrite Forall_forall in Hall. apply Hall, list_elem_of_In, in_or_app. now right.
Qed.

Lemma In_take (k : nat) (l : list A) (a : A) : In a (take k l) -> In a l.
Proof.
  intros Ha. rewrite <- (take_drop k l). apply in_or_app. now left.
Qed.

End Limit.

(** ** [GET /doctor/:doctorId?], continued *)

Section DoctorPayload.
Variable clock : Date.clock.
Variable db : Store.

(** A doctor who leaves the id out, or gives an empty one, is served as
    with their own id. *)
Lemma getDoctor_missing (user : Jwt.payload) (doctorId : option string) :
  missing doctorId = true -> Jwt.role user = "doctor" ->
  getDoctor clock db (Bearer user) doctorId =
  getDoctor clock db (Bearer user) (Some (Jwt.userIdString user)).
Proof.
  intros Hm Hrole. unfold getDoctor, authenticateToken, and_then. rewrite Hm.
  pose proof (userIdString_not_empty user) as Hne%String.eqb_neq.
  unfold missing. rewrite Hne, Hrole. reflexivity.
Qed.

(** The four pipelines of the handler are sent the id as a string, and
    what they give does not depend on which one. *)
Lemma doctorAnalytics_string (d d' : string) (id : ObjectId.t) (u : User.doc) :
  doctorAnalytics clock db d id u = doctorAnalytics clock db d' id u.
Proof. reflexivity. Qed.



End DoctorPayload.

(** X6: a doctor-analytics payload is only ever about a user that exists
    with role ['doctor']: the id is the one the requested string is cast
    to, or the caller's own when a doctor left it out; a caller with role
    ['doctor'] only ever receives the payload of their own id. *)
Theorem doctor_payload_origin
    (clock : Date.clock) (db : Store) (auth : authorization) (doctorId : option string)
    (a : Doctor.analytics) :
  json (getDoctor clock db auth doctorId) = DoctorJson a ->
  exists user d id u,
    auth = Bearer user
    /\ (if missing doctorId
        then Jwt.role user = "doctor" /\ d = Jwt.userIdString user
        else doctorId = Some d)
    /\ (Jwt.role user = "doctor" -> id = Jwt.userId user)
    /\ ObjectId.cast d = Some id
    /\ In u (users db) /\ User._id u = id /\ User.role u = "doctor"
    /\ a = doctorAnalytics clock db d id u
    /\ DoctorCard._id (Doctor.doctor a) = id.
Proof.
  destruct auth as [| |user]; try discriminate.
  assert (Hfound : forall d,
            json (getDoctor clock db (Bearer user) (Some d)) = DoctorJson a ->
            d <> "" ->
            Jwt.role user <> "doctor" \/ d = Jwt.userIdString user ->
            exists id u,
              (Jwt.role user = "doctor" -> id = Jwt.userId user)
              /\ ObjectId.cast d = Some id
              /\ In u (users db) /\ User._id u = id /\ User.role u = "doctor"
              /\ a = doctorAnalytics clock db d id u
              /\ DoctorCard._id (Doctor.doctor a) = id).
  { intros d Ha Hd Hpass. rewrite getDoctor_passed in Ha by assumption.
    destruct (ObjectId.cast d) as [id|] eqn:Hcast; [|discriminate].
    destruct (List.find _ (users db)) as [u|] eqn:Hfind; [|discriminate].
    injection Ha as <-. apply List.find_some in Hfind as [Hu Hmatch].
    apply andb_true_iff in Hmatch as [Hid%oid_eqb_eq Hrole%String.eqb_eq].
    exists id, u. repeat split; trivial.
    intros Hdoc. destruct Hpass as [Hno| ->]; [contradiction|].
    unfold Jwt.userIdString in Hcast. rewrite cast_toString in Hcast. congruence. }
  destruct (missing doctorId) eqn:Hm.
  - destruct (String.eqb_spec (Jwt.role user) "doctor") as [Hr|Hr].
    + rewrite getDoctor_missing by assumption. intros Ha.
      destruct (Hfound _ Ha (userIdString_not_empty user) (or_intror eq_refl))
        as [id [u Hu]].
      exists user, (Jwt.userIdString user), id, u. tauto.
    + unfold getDoctor, authenticateToken, and_then. rewrite Hm.
      apply String.eqb_neq in Hr. rewrite Hr. discriminate.
  - destruct doctorId as [d|]; [|discriminate].
    assert (Hd : d <> "") by (now apply String.eqb_neq).
    destruct (String.eqb_spec (Jwt.role user) "doctor") as [Hr|Hr].
    + destruct (String.eqb_spec d (Jwt.userIdString user)) as [Hown|Hown].
      * intros Ha. destruct (Hfound _ Ha Hd (or_intror Hown)) as [id [u Hu]].
        exists user, d, id, u. tauto.
      * rewrite getDoctor_foreign by assumption. discriminate.
    + intros Ha. destruct (Hfound _ Ha Hd (or_introl Hr)) as [id [u Hu]].
      exists user, d, id, u. tauto.
Qed.

Lemma doctor_payload_origin_witness :
  exists a, json (getDoctor Sample.clock Sample.db (Bearer Sample.admin)
                            (Some "64B7F0C2A1D3E4F5A6B7C8D1"))
            = DoctorJson a
            /\ DoctorCard._id (Doctor.doctor a) = Sample.doctorId.
Proof.
  assert (H : exists a, json (getDoctor Sample.clock Sample.db (Bearer Sample.admin)
                                (Some "64B7F0C2A1D3E4F5A6B7C8D1")) = DoctorJson a)
    by (eexists; vm_compute; reflexivity).
  destruct H as [a Ha]. exists a. split; [exact Ha|].
  destruct (doctor_payload_origin _ _ _ _ _ Ha)
    as [user [d [id [u [_ [Hd [_ [Hcast [_ [_ [_ [_ Hcard]]]]]]]]]]]].
  simpl in Hd. injection Hd as <-.
  assert (Hid : ObjectId.cast "64B7F0C2A1D3E4F5A6B7C8D1" = Some Sample.doctorId)
    by (vm_compute; reflexivity).
  rewrite Hid in Hcast. injection Hcast as <-. exact Hcard.
Defined.

(** X7: in every doctor-analytics payload the four fields that come from
    aggregation pipelines are empty, whoever the doctor is and whatever the
    store holds: no condition histogram, the average ['0.0000'], no daily
    series and no performance metrics. The fields that come from queries of
    model methods count the doctor's own documents: the analyses whose
    [doctor_id] is the id, the recent ones among them, and at most ten of
    the doctor's patients. *)
Theorem doctor_payload_pipelines_empty
    (clock : Date.clock) (db : Store) (d : string) (id : ObjectId.t) (u : User.doc) :
  let a := doctorAnalytics clock db d id u in
  Doctor.conditionDistribution a = []
  /\ Doctor.averageConfidence a = Num.Digits "0.0000"
  /\ Doctor.dailyAnalyses a = []
  /\ Doctor.performanceMetrics a = None
  /\ Doctor.totalAnalyses a
     = length (filter (fun x => RetinalAnalysis.doctor_id x = id) (retinalanalyses db))
  /\ Doctor.totalPatients a
     = length (filter (fun p => Patient.doctor_id p = Some id) (patients db))
  /\ (Doctor.recentAnalyses a <= Doctor.totalAnalyses a)%nat
  /\ (length (Doctor.recentPatients a) <= Nat.min 10 (Doctor.totalPatients a))%nat.
Proof.
  cbn [doctorAnalytics Doctor.conditionDistribution Doctor.averageConfidence
       Doctor.dailyAnalyses Doctor.performanceMetrics Doctor.totalAnalyses
       Doctor.totalPatients Doctor.recentAnalyses Doctor.recentPatients Bson.eqb andb].
  cbv zeta.
  assert (Hnone : List.filter (fun _ : RetinalAnalysis.doc => false) (retinalanalyses db) = [])
    by (now apply filter_nil_intro).
  rewrite Hnone. clear Hnone.
  split; [apply histogram_nil|]. split; [reflexivity|].
  split; [unfold dailyStages; now rewrite group_by_nil|]. split; [reflexivity|].
  split.
  { f_equal. induction (retinalanalyses db) as [|x l IH]; [reflexivity|].
    cbn [List.filter]. rewrite IH.
    destruct (ObjectId.eqb (RetinalAnalysis.doctor_id x) id) eqn:Hx.
    - apply oid_eqb_eq in Hx. now rewrite filter_cons_True.
    - rewrite filter_cons_False; [reflexivity|]. intros Heq. apply oid_eqb_eq in Heq. congruence. }
  split.
  { f_equal. induction (patients db) as [|x l IH]; [reflexivity|].
    cbn [List.filter]. rewrite IH.
    destruct (Patient.doctor_id x) as [i|] eqn:Hi; cbn [Bson.ofId Bson.eqb].
    - destruct (ObjectId.eqb i id) eqn:Hx.
      + apply oid_eqb_eq in Hx. subst i. now rewrite filter_cons_True.
      + rewrite filter_cons_False; [reflexivity|]. rewrite Hi. intros [= Heq].
        apply oid_eqb_eq in Heq. congruence.
    - rewrite filter_cons_False; [reflexivity|]. now rewrite Hi. }
  split.
  { rewrite (List.filter_ext _
               (fun a => (Date.thirtyDaysAgo clock <=? RetinalAnalysis.created_at a)
                         && ObjectId.eqb (RetinalAnalysis.doctor_id a) id))
      by (intros x; apply andb_comm).
    rewrite filter_andb. apply List.filter_length_le. }
  rewrite length_take, length_map, sort_by_length. lia.
Qed.

(** X8: the patients listed in a doctor-analytics payload are the doctor's
    most recently created ones: they are patients assigned to that doctor,
    newest first, ten of them unless the doctor has fewer, and no patient of
    the doctor left out was created later than a listed one. *)
Theorem doctor_recent_patients
    (clock : Date.clock) (db : Store) (d : string) (id : ObjectId.t) (u : User.doc) :
  let assigned p := Bson.eqb (Bson.ofId (Patient.doctor_id p)) (Bson.Oid id) in
  exists kept dropped,
    map PatientCard._id (Doctor.recentPatients (doctorAnalytics clock db d id u))
    = map Patient._id kept
    /\ map PatientCard.created_at (Doctor.recentPatients (doctorAnalytics clock db d id u))
       = map Patient.created_at kept
    /\ Permutation (kept ++ dropped) (List.filter assigned (patients db))
    /\ (forall p, In p kept -> Patient.doctor_id p = Some id)
    /\ length kept = Nat.min 10 (length (List.filter assigned (patients db)))
    /\ StronglySorted (fun p q => Patient.created_at q <= Patient.created_at p) kept
    /\ (forall p q, In p kept -> In q dropped ->
                    Patient.created_at q <= Patient.created_at p).
Proof.
  intros assigned.
  set (theirs := List.filter assigned (patients db)).
  exists (take 10 (sort_by (descending Patient.created_at) theirs)),
         (drop 10 (sort_by (descending Patient.created_at) theirs)).
  cbn [doctorAnalytics Doctor.recentPatients]. fold assigned. fold theirs.
  rewrite <- !fmap_take.
  split; [now rewrite List.map_map|]. split; [now rewrite List.map_map|].
  destruct (sort_limit_spec Patient.created_at 10 theirs) as [Hperm [Hlen [Hsorted Hcut]]].
  split; [exact Hperm|]. split; [|now repeat split].
  intros p Hp%In_take.
  apply list_elem_of_In, sort_by_elem_of, list_elem_of_In in Hp.
  subst theirs. apply List.filter_In in Hp as [_ Hp]. subst assigned. cbn beta in Hp.
  destruct (Patient.doctor_id p) as [i|]; cbn [Bson.ofId Bson.eqb] in Hp; [|discriminate].
  apply oid_eqb_eq in Hp. now subst i.
Qed.

(** X9: what [GET /overview] reports to a doctor and what
    [GET /doctor/:doctorId] reports about that doctor are the same numbers:
    patients, analyses and recent analyses, which both handlers count with
    [countDocuments], and the condition histogram and average confidence,
    which are empty in both. *)
Theorem overview_agrees_with_doctor
    (clock : Date.clock) (db : Store) (user : Jwt.payload) (u : User.doc) :
  Jwt.role user = "doctor" ->
  let o := overviewAnalytics clock db user in
  let a := doctorAnalytics clock db (Jwt.userIdString user) (Jwt.userId user) u in
  Overview.totalPatients o = Doctor.totalPatients a
  /\ Overview.totalAnalyses o = Doctor.totalAnalyses a
  /\ Overview.recentAnalyses o = Doctor.recentAnalyses a
  /\ Overview.conditionDistribution o = Doctor.conditionDistribution a
  /\ Overview.averageConfidence o = Doctor.averageConfidence a.
Proof.
  intros Hrole.
  cbn [overviewAnalytics doctorAnalytics Overview.totalPatients Overview.totalAnalyses
       Overview.recentAnalyses Overview.conditionDistribution Overview.averageConfidence
       Doctor.totalPatients Doctor.totalAnalyses Doctor.recentAnalyses
       Doctor.conditionDistribution Doctor.averageConfidence Bson.eqb andb]. cbv zeta.
  unfold conditionMatch, confidenceMatch.
  rewrite !doctor_match_nil by exact Hrole.
  assert (Hnone : List.filter (fun _ : RetinalAnalysis.doc => false) (retinalanalyses db) = [])
    by (now apply filter_nil_intro).
  rewrite Hnone.
  assert (Hcounted : forall x, counted user x
                               = ObjectId.eqb (RetinalAnalysis.doctor_id x) (Jwt.userId user)).
  { intros x. unfold counted, own. now rewrite Hrole. }
  split; [|split; [|split; [|split; reflexivity]]]; f_equal; apply List.filter_ext; intros x.
  - unfold own. now rewrite Hrole.
  - apply Hcounted.
  - rewrite Hcounted. apply andb_comm.
Qed.

Lemma overview_agrees_with_doctor_witness :
  Overview.totalAnalyses (overviewAnalytics Sample.clock Sample.db Sample.doctor)
  = Doctor.totalAnalyses
      (doctorAnalytics Sample.clock Sample.db (Jwt.userIdString Sample.doctor)
         Sample.doctorId
         {| User._id := Sample.doctorId; User.name := "Dr. John Smith";
            User.role := "doctor"; User.specialty := Some "Ophthalmology";
            User.license_number := Some "MD123456" |}).
Proof.
  apply (overview_agrees_with_doctor Sample.clock Sample.db Sample.doctor
           {| User._id := Sample.doctorId; User.name := "Dr. John Smith";
              User.role := "doctor"; User.specialty := Some "Ophthalmology";
              User.license_number := Some "MD123456" |} eq_refl).
Defined.

(** X10: a caller the guards of [GET /doctor/:doctorId] let through who
    gives a string that names no [ObjectId] is answered 500; the caller is
    never a doctor, whose own id always is one. Two strings that are cast
    to the same id, such as its upper-case and its lower-case spelling, are
    answered alike. *)
Theorem doctor_malformed_id_is_500
    (clock : Date.clock) (db : Store) (user : Jwt.payload) (d d' : string) :
  d <> "" -> d' <> "" -> Jwt.role user <> "doctor" ->
  (ObjectId.cast d = None ->
   getDoctor clock db (Bearer user) (Some d) =
     refusal 500 "Failed to fetch doctor analytics")
  /\ (ObjectId.cast d = ObjectId.cast d' ->
      getDoctor clock db (Bearer user) (Some d) = getDoctor clock db (Bearer user) (Some d')).
Proof.
  intros Hd Hd' Hrole. rewrite !getDoctor_passed by auto. split.
  - now intros ->.
  - intros <-. destruct (ObjectId.cast d) as [id|]; [|reflexivity].
    destruct (List.find _ (users db)) as [u|]; [|reflexivity].
    now rewrite (doctorAnalytics_string clock db d d').
Qed.

Lemma doctor_malformed_id_is_500_witness :
  getDoctor Sample.clock Sample.db (Bearer Sample.admin) (Some "d1") =
    refusal 500 "Failed to fetch doctor analytics"
  /\ getDoctor Sample.clock Sample.db (Bearer Sample.admin) (Some "64B7F0C2A1D3E4F5A6B7C8D1")
     = getDoctor Sample.clock Sample.db (Bearer Sample.admin)
                 (Some "64b7f0c2a1d3e4f5a6b7c8d1").
Proof.
  assert (Hsame : ObjectId.cast "64B7F0C2A1D3E4F5A6B7C8D1"
                  = ObjectId.cast "64b7f0c2a1d3e4f5a6b7c8d1")
    by (vm_compute; reflexivity).
  split.
  - apply (doctor_malformed_id_is_500 Sample.clock Sample.db Sample.admin "d1" "d1");
      [discriminate|discriminate|discriminate|reflexivity].
  - apply (doctor_malformed_id_is_500 Sample.clock Sample.db Sample.admin
             "64B7F0C2A1D3E4F5A6B7C8D1" "64b7f0c2a1d3e4f5a6b7c8d1");
      [discriminate|discriminate|discriminate|exact Hsame].
Defined.


(** ** Leaderboard and model summaries *)

Lemma fold_max_spec (ts : list Z) (t : Z) :
  let m := fold_left Z.max ts t in
  In m (t :: ts) /\ forall x, In x (t :: ts) -> x <= m.
Proof.
  revert t. induction ts as [|y ts IH]; intros t; cbn [fold_left].
  - split; [now left|]. intros x [<-|[]]. lia.
  - destruct (IH (Z.max t y)) as [Hin Hmax]. split.
    + destruct Hin as [Hm|Hin]; [|right; now right].
      rewrite <- Hm. destruct (Z.max_spec t y) as [[_ ->]|[_ ->]]; [right|]; now left.
    + intros x Hx. assert (Z.max t y <= fold_left Z.max ts (Z.max t y))
        by (apply Hmax; now left).
      destruct Hx as [<-|[<-|Hx]]; [lia|lia|]. apply Hmax. now right.
Qed.

Lemma latest_spec (dates : list Z) :
  match latest dates with
  | Some m => In m dates /\ forall x, In x dates -> x <= m
  | None => dates = []
  end.
Proof.
  destruct dates as [|t ts]; [reflexivity|]. apply fold_max_spec.
Qed.

(** X12: every entry of the [topDoctors] leaderboard stands for a user with
    role ['doctor'], carries that user's name and specialty, and counts that
    user's analyses, of which there is at least one; and every such doctor
    is either on the board or has no more analyses than anyone on it. *)
Theorem top_doctors_entries (db : Store) :
  let volume u :=
    length (filter (fun a => RetinalAnalysis.doctor_id a = User._id u)
                   (retinalanalyses db)) in
  (forall e, In e (topDoctorsPipeline db) ->
     exists u, In u (users db) /\ User.role u = "doctor"
               /\ TopDoctor.doctor_name e = User.name u
               /\ TopDoctor.specialty e = User.specialty u
               /\ TopDoctor.analysis_count e = volume u
               /\ (1 <= volume u)%nat)
  /\ (forall u, In u (users db) -> User.role u = "doctor" -> (1 <= volume u)%nat ->
        (exists e, In e (topDoctorsPipeline db)
                   /\ TopDoctor.doctor_name e = User.name u
                   /\ TopDoctor.analysis_count e = volume u)
        \/ (forall e, In e (topDoctorsPipeline db) ->
                      (volume u <= TopDoctor.analysis_count e)%nat)).
Proof.
  intros volume. unfold topDoctorsPipeline.
  set (counted := countBy RetinalAnalysis.doctor_id (retinalanalyses db)).
  set (unwound := flat_map _ counted).
  set (matched := List.filter _ unwound).
  set (projected := map _ matched).
  set (key := fun d => Z.of_nat (TopDoctor.analysis_count d)).
  assert (Hproj : forall e, In e projected <->
            exists u, In u (users db) /\ User.role u = "doctor"
                      /\ e = {| TopDoctor.doctor_name := User.name u;
                                TopDoctor.specialty := User.specialty u;
                                TopDoctor.analysis_count := volume u |}
                      /\ (1 <= volume u)%nat).
  { intros e. subst projected matched unwound. rewrite List.in_map_iff. split.
    - intros [[u n] [<- Hr]]. apply List.filter_In in Hr as [Hr Hrole%String.eqb_eq].
      apply List.in_flat_map in Hr as [[k n'] [Hk Hu]].
      apply List.in_map_iff in Hu as [u' [[= <- <-] Hu]].
      apply List.filter_In in Hu as [Hu Hid%oid_eqb_eq]. cbn [fst snd] in *.
      apply list_elem_of_In, countBy_spec in Hk as [-> Hpos]. subst k.
      exists u'. repeat split; trivial. fold (volume u') in Hpos. lia.
    - intros [u [Hu [Hrole [-> Hpos]]]]. exists (u, volume u). split; [reflexivity|].
      apply List.filter_In. split; [|now apply String.eqb_eq].
      apply List.in_flat_map. exists (User._id u, volume u). split.
      + apply list_elem_of_In, countBy_spec. split; [reflexivity|]. fold (volume u). lia.
      + apply List.in_map_iff. exists u. split; [reflexivity|].
        apply List.filter_In. split; [exact Hu|apply oid_eqb_refl]. }
  destruct (sort_limit_spec key 10 projected) as [Hperm [_ [_ Hcut]]].
  split.
  - intros e He. apply In_take in He.
    apply list_elem_of_In, sort_by_elem_of, list_elem_of_In, Hproj in He
      as [u [Hu [Hrole [-> Hpos]]]].
    exists u. repeat split; trivial.
  - intros u Hu Hrole Hpos.
    set (e := {| TopDoctor.doctor_name := User.name u;
                 TopDoctor.specialty := User.specialty u;
                 TopDoctor.analysis_count := volume u |}).
    assert (He : In e projected) by (apply Hproj; exists u; repeat split; trivial).
    apply list_elem_of_In in He. rewrite <- Hperm in He.
    apply list_elem_of_In, in_app_or in He as [He|He].
    + left. exists e. repeat split; trivial.
    + right. intros e' He'. specialize (Hcut e' e He' He). subst key. cbn in Hcut. lia.
Qed.

Lemma top_doctors_entries_witness :
  exists u, In u (users Sample.db) /\ User.role u = "doctor"
            /\ User.name u = "Dr. John Smith"
            /\ length (filter (fun a => RetinalAnalysis.doctor_id a = User._id u)
                              (retinalanalyses Sample.db)) = 2%nat.
Proof.
  destruct (top_doctors_entries Sample.db) as [Hentries _].
  assert (Hin : In {| TopDoctor.doctor_name := "Dr. John Smith";
                      TopDoctor.specialty := Some "Ophthalmology";
                      TopDoctor.analysis_count := 2 |}
                   (topDoctorsPipeline Sample.db))
    by (vm_compute; now left).
  destruct (Hentries _ Hin) as [u [Hu [Hrole [Hname [_ [Hcount _]]]]]].
  exists u. split; [exact Hu|]. split; [exact Hrole|].
  split; [now symmetry|now symmetry].
Defined.

(** X13: the per-version model summary of [GET /overview] has one entry for
    every model version that has a row; the entry's [last_evaluation] is the
    date of one of the version's rows and no row of the version is dated
    later; and the entries run from the latest [last_evaluation] to the
    earliest. *)
Theorem model_summary_latest (db : Store) :
  let summary := aiModelPerformancePipeline db in
  (forall row, In row (aimodelperformances db) ->
     exists e t, In e summary
                 /\ ModelSummary.model_version e = AIModelPerformance.model_version row
                 /\ ModelSummary.last_evaluation e = Some t
                 /\ AIModelPerformance.evaluation_date row <= t)
  /\ (forall e, In e summary ->
        exists row, In row (aimodelperformances db)
                    /\ AIModelPerformance.model_version row = ModelSummary.model_version e
                    /\ ModelSummary.last_evaluation e
                       = Some (AIModelPerformance.evaluation_date row))
  /\ Sorted (fun x y => forall a b, ModelSummary.last_evaluation x = Some a ->
                                    ModelSummary.last_evaluation y = Some b -> b <= a)
            summary.
Proof.
  cbv zeta. unfold aiModelPerformancePipeline.
  set (project := fun g : option string * list AIModelPerformance.doc => _).
  split; [|split].
  - intros row Hrow.
    set (g := filter (fun r => AIModelPerformance.model_version r
                               = AIModelPerformance.model_version row)
                     (aimodelperformances db)).
    assert (Hg : row ∈ g)
      by (apply list_elem_of_filter; split; [reflexivity|now apply list_elem_of_In]).
    pose proof (latest_spec (map AIModelPerformance.evaluation_date g)) as Hlatest.
    destruct (latest _) as [t|] eqn:Ht.
    + exists (project (AIModelPerformance.model_version row, g)), t.
      split; [|split; [reflexivity|split; [exact Ht|]]].
      * apply list_elem_of_In, sort_by_elem_of, list_elem_of_In, List.in_map.
        apply list_elem_of_In, group_by_spec. split; [reflexivity|].
        intros E. rewrite E in Hg. inversion Hg.
      * apply Hlatest, List.in_map. now apply list_elem_of_In.
    + apply List.map_eq_nil in Hlatest. rewrite Hlatest in Hg. inversion Hg.
  - intros e He.
    apply list_elem_of_In, sort_by_elem_of, list_elem_of_In, List.in_map_iff in He
      as [[k g] [<- Hg]].
    apply list_elem_of_In, group_by_spec in Hg as [-> Hne].
    subst project. cbn [fst snd ModelSummary.model_version ModelSummary.last_evaluation].
    pose proof (latest_spec (map AIModelPerformance.evaluation_date
                               (filter (fun d => AIModelPerformance.model_version d = k)
                                       (aimodelperformances db)))) as Hlatest.
    destruct (latest _) as [t|].
    + destruct Hlatest as [Hin _]. apply List.in_map_iff in Hin as [row [<- Hrow]].
      apply list_elem_of_In, list_elem_of_filter in Hrow as [Hk Hrow].
      exists row. repeat split; trivial. now apply list_elem_of_In.
    + apply List.map_eq_nil in Hlatest. contradiction.
  - eapply Sorted_ind with (P := fun l => Sorted _ l);
      [constructor| |apply (sort_by_Sorted (descending_opt ModelSummary.last_evaluation))].
    + intros x l Hl IH Hx. constructor; [exact IH|].
      destruct Hx as [|y l Hxy]; constructor.
      intros a b Ha Hb. unfold descending_opt in Hxy. rewrite Ha, Hb in Hxy. lia.
    + intros x y. unfold descending_opt.
      destruct (ModelSummary.last_evaluation x), (ModelSummary.last_evaluation y);
        trivial; try discriminate. lia.
Qed.

Lemma model_summary_latest_witness :
  let db := store (snd (postAIPerformance Sample.morning (Bearer Sample.admin)
                          (Sample.update 10000) Sample.server)) in
  exists e t, In e (aiModelPerformancePipeline db)
              /\ ModelSummary.last_evaluation e = Some t
              /\ Date.now Sample.morning <= t.
Proof.
  intros db.
  destruct (model_summary_latest db) as [Hall _].
  destruct (Hall (updateFrom Sample.morning (Sample.update 10000)
                             (schemaDefaults Sample.morning)))
    as [e [t [He [_ [Ht Hle]]]]].
  - vm_compute. now left.
  - exists e, t. split; [exact He|]. split; [exact Ht|exact Hle].
Defined.

(** X14: [GET /ai-performance] passes the rows of the model-performance
    collection through whole, none added and none dropped, ordered from the
    latest evaluation date to the earliest. *)
Theorem model_versions_pass_through (clock : Date.clock) (db : Store) :
  let versions := AIPerformance.modelVersions (performanceReport clock db) in
  Permutation versions (aimodelperformances db)
  /\ StronglySorted (fun x y => AIModelPerformance.evaluation_date y
                                <= AIModelPerformance.evaluation_date x) versions.
Proof.
  cbn [performanceReport AIPerformance.modelVersions]. cbv zeta.
  split; [apply sort_by_Permutation|apply sort_descending].
Qed.


(** ** The middleware in front of the routes *)

(** X16: every route asks for a token: without one the answer is 401, with
    one that does not verify it is 403, and [POST /ai-performance] leaves
    the server as it was. A caller whose role is not ['admin'] is refused
    by both [/ai-performance] routes, and one whose role is neither
    ['admin'] nor ['doctor'] by [/overview] and [/patients], with 403
    ['Insufficient permissions']. *)
Theorem routes_guarded
    (clock : Date.clock) (db : Store) (doctorId : option string)
    (body : PerformanceUpdate.t) (server : Server) :
  (forall auth r,
     (auth = NoToken /\ r = refusal 401 "Access token required")
     \/ (auth = InvalidToken /\ r = refusal 403 "Invalid or expired token") ->
     getOverview clock db auth = r
     /\ getDoctor clock db auth doctorId = r
     /\ getAIPerformance clock db auth = r
     /\ getPatients clock db auth = r
     /\ postAIPerformance clock auth body server = (r, server))
  /\ (forall user, Jwt.role user <> "admin" ->
        getAIPerformance clock db (Bearer user) = refusal 403 "Insufficient permissions"
        /\ postAIPerformance clock (Bearer user) body server
           = (refusal 403 "Insufficient permissions", server))
  /\ (forall user, Jwt.role user <> "admin" -> Jwt.role user <> "doctor" ->
        getOverview clock db (Bearer user) = refusal 403 "Insufficient permissions"
        /\ getPatients clock db (Bearer user) = refusal 403 "Insufficient permissions").
Proof.
  split; [|split].
  - intros auth r [[-> ->]|[-> ->]]; repeat split.
  - intros user Hrole%String.eqb_neq.
    unfold getAIPerformance, postAIPerformance, admission, authenticateToken, requireRole,
      includes, and_then. cbn [existsb]. rewrite Hrole. now split.
  - intros user Ha%String.eqb_neq Hd%String.eqb_neq.
    unfold getOverview, getPatients, authenticateToken, requireRole, includes, and_then.
    cbn [existsb]. rewrite Ha, Hd. now split.
Qed.

Lemma routes_guarded_witness :
  getPatients Sample.clock Sample.db NoToken = refusal 401 "Access token required"
  /\ getAIPerformance Sample.clock Sample.db (Bearer Sample.doctor)
     = refusal 403 "Insufficient permissions"
  /\ getPatients Sample.clock Sample.db (Bearer Sample.patient)
     = refusal 403 "Insufficient permissions".
Proof.
  destruct (routes_guarded Sample.clock Sample.db None (Sample.update 1) Sample.server)
    as [Htoken [Hadmin Hstaff]].
  split; [|split].
  - apply (Htoken NoToken _ (or_introl (conj eq_refl eq_refl))).
  - apply (Hadmin Sample.doctor). discriminate.
  - apply (Hstaff Sample.patient); discriminate.
Defined.

(** ** [POST /ai-performance], continued *)

Lemma findOneAndUpdate_length {A : Type} (filter : A -> bool) (update : A -> A)
    (inserted : A) (docs : list A) :
  (length docs <= length (findOneAndUpdate filter update inserted docs)
   <= S (length docs))%nat.
Proof.
  induction docs as [|d docs IH]; cbn [findOneAndUpdate length]; [lia|].
  destruct (filter d); cbn [length]; lia.
Qed.





(** X18: a call of [POST /ai-performance] that is answered 200 leaves the
    users, patients and analyses as they were and either updates one row of
    the model-performance collection or appends one; it writes one frame,
    of type ['ai_performance_updated'] and carrying the five fields the
    handler picks from the body, to every open socket, whatever the role of
    its user, and none to a closed one. *)
Theorem post_accepted_effects
    (clock : Date.clock) (auth : authorization) (body : PerformanceUpdate.t)
    (server : Server) :
  status (fst (postAIPerformance clock auth body server)) = 200 ->
  let after := snd (postAIPerformance clock auth body server) in
  let frame := {| Frame.type := "ai_performance_updated"; Frame.data := eventOf body |} in
  fst (postAIPerformance clock auth body server)
  = send (Message "AI model performance updated successfully")
  /\ users (store after) = users (store server)
  /\ patients (store after) = patients (store server)
  /\ retinalanalyses (store after) = retinalanalyses (store server)
  /\ (length (aimodelperformances (store server))
      <= length (aimodelperformances (store after))
      <= S (length (aimodelperformances (store server))))%nat
  /\ length (activeConnections after) = length (activeConnections server)
  /\ (forall i ws, activeConnections server !! i = Some ws ->
        exists ws', activeConnections after !! i = Some ws'
                    /\ Socket.isOpen ws' = Socket.isOpen ws
                    /\ Socket.user ws' = Socket.user ws
                    /\ Socket.sent ws'
                       = if Socket.isOpen ws then (Socket.sent ws ++ [frame])%list
                         else Socket.sent ws).
Proof.
  intros [Hok Hcast]%postAIPerformance_200. cbv zeta.
  rewrite postAIPerformance_accepted by assumption.
  cbn [fst snd store activeConnections upsertPerformance users patients retinalanalyses
       aimodelperformances].
  repeat (split; [reflexivity|]).
  split; [apply findOneAndUpdate_length|].
  unfold broadcastUpdate. split; [apply length_map|].
  intros i ws Hws.
  change (map ?f ?l) with (f <$> l). rewrite list_lookup_fmap, Hws. cbn [fmap option_fmap option_map].
  eexists. split; [reflexivity|]. rewrite andb_true_r.
  destruct (Socket.isOpen ws) eqn:Hopen; cbn [Socket.isOpen Socket.user Socket.sent];
    auto.
Qed.

Lemma post_accepted_effects_witness :
  map (fun ws => length (Socket.sent ws))
      (activeConnections
         (snd (postAIPerformance Sample.morning (Bearer Sample.admin) (Sample.update 10000)
                                 Clinic.server)))
  = [1%nat; 1%nat; 0%nat]
  /\ fst (postAIPerformance Sample.morning (Bearer Sample.admin) (Sample.update 10000)
                            Clinic.server)
     = send (Message "AI model performance updated successfully").
Proof.
  split; [vm_compute; reflexivity|].
  apply (post_accepted_effects Sample.morning (Bearer Sample.admin) (Sample.update 10000)
           Clinic.server eq_refl).
Defined.



(** ** [GET /patients] *)

Section PatientFacts.
Variable clock : Date.clock.
Variable db : Store.

Lemma assignedTo_iff (user : Jwt.payload) (p : Patient.doc) :
  assignedTo user p = true <-> Jwt.role user <> "doctor".
Proof.
  unfold assignedTo. destruct (String.eqb_spec (Jwt.role user) "doctor") as [Hr|Hr].
  - destruct (Patient.doctor_id p); cbn [Bson.ofId Bson.eqb];
      split; try discriminate; contradiction.
  - split; trivial.
Qed.

Lemma patientMatch_doctor (user : Jwt.payload) :
  Jwt.role user = "doctor" -> patientMatch db user = [].
Proof.
  intros Hrole. apply filter_nil_intro. intros p _.
  destruct (assignedTo user p) eqn:E; [|reflexivity].
  apply assignedTo_iff in E. contradiction.
Qed.


Lemma getPatients_granted (user : Jwt.payload) :
  Jwt.role user = "admin" \/ Jwt.role user = "doctor" ->
  getPatients clock db (Bearer user) = send (PatientsJson (patientReport clock db user)).
Proof.
  intros Hrole%includes_admin_doctor.
  unfold getPatients, authenticateToken, requireRole, and_then.
  now rewrite Hrole.
Qed.



End PatientFacts.

(** X20: [GET /patients] called by a doctor: the four pipelines are sent
    the doctor's id as a string and match no patient, so the age and
    gender distributions and the registration series are empty and the
    analysis statistics are the zeros the handler puts in for a missing
    group; the list of recent patients, which [Patient.find] fetches,
    holds the ten most recent of the doctor's own patients. *)
Theorem patients_doctor_report (clock : Date.clock) (db : Store) (user : Jwt.payload) :
  Jwt.role user = "doctor" ->
  let theirs := filter (fun p => Patient.doctor_id p = Some (Jwt.userId user)) (patients db) in
  exists r,
    getPatients clock db (Bearer user) = send (PatientsJson r)
    /\ PatientAnalytics.ageDistribution r = []
    /\ PatientAnalytics.genderDistribution r = []
    /\ PatientAnalytics.registrationTrends r = []
    /\ PatientAnalytics.analysisStats r
       = {| AnalysisStats.total_patients := 0; AnalysisStats.patients_with_analysis := 0 |}
    /\ map RecentPatient.id (PatientAnalytics.recentPatients r)
       = map Patient._id (take 10 (sort_by (descending Patient.created_at) theirs))
    /\ length (PatientAnalytics.recentPatients r) = Nat.min 10 (length theirs).
Proof.
  intros Hrole theirs. exists (patientReport clock db user).
  split; [apply getPatients_granted; now right|].
  cbn [patientReport PatientAnalytics.ageDistribution PatientAnalytics.genderDistribution
       PatientAnalytics.registrationTrends PatientAnalytics.analysisStats
       PatientAnalytics.recentPatients].
  unfold ageStats, genderStats, registrationTrends, analysisStatsStage, recentPatientsOf.
  rewrite patientMatch_doctor by exact Hrole. cbn [List.filter group_all map].
  unfold countBy. rewrite !group_by_nil. cbn [map sort_by foldr].
  repeat (split; [reflexivity|]).
  rewrite own_doctor by exact Hrole. fold theirs. split.
  - now rewrite List.map_map.
  - now rewrite length_map, length_take, sort_by_length.
Qed.

Lemma patients_doctor_report_witness :
  exists r,
    getPatients Sample.clock Clinic.db (Bearer Sample.doctor) = send (PatientsJson r)
    /\ PatientAnalytics.ageDistribution r = []
    /\ map RecentPatient.id (PatientAnalytics.recentPatients r) = [Sample.patientId].
Proof.
  destruct (patients_doctor_report Sample.clock Clinic.db Sample.doctor eq_refl)
    as [r [Hr [Hage [_ [_ [_ [Hrecent _]]]]]]].
  exists r. split; [exact Hr|]. split; [exact Hage|].
  rewrite Hrecent. vm_compute. reflexivity.
Defined.



(** X22: the [user_name] of a listed patient is the name of the user the
    patient's [user_id] points to; it is [null] when the patient has no
    [user_id], when no user has that id, and when the name is empty. *)
Theorem recent_patient_user_name (db : Store) (p : Patient.doc) :
  match RecentPatient.user_name (formatPatient db p) with
  | Some name =>
      name <> ""
      /\ exists u, In u (users db) /\ Patient.user_id p = Some (User._id u)
                   /\ User.name u = name
  | None =>
      forall u, In u (users db) -> Patient.user_id p = Some (User._id u) ->
                exists u', In u' (users db) /\ User._id u' = User._id u /\ User.name u' = ""
  end.
Proof.
  cbn [formatPatient RecentPatient.user_name]. unfold userName.
  destruct (Patient.user_id p) as [uid|]; [|discriminate].
  destruct (List.find _ (users db)) as [u|] eqn:Hfind.
  - apply List.find_some in Hfind as [Hu Hid%oid_eqb_eq].
    destruct (String.eqb_spec (User.name u) "") as [Hname|Hname].
    + intros u' Hu' [= ->]. exists u. auto.
    + split; [exact Hname|]. exists u. subst uid. auto.
  - intros u Hu [= ->].
    apply (List.find_none _ _ Hfind) in Hu. now rewrite oid_eqb_refl in Hu.
Qed.

Lemma recent_patient_user_name_witness :
  exists u, In u (users Sample.db)
            /\ Patient.user_id (hd (Clinic.child) (patients Sample.db)) = Some (User._id u)
            /\ User.name u = "Sarah Johnson".
Proof.
  exact (proj2 (recent_patient_user_name Sample.db
                  (hd Clinic.child (patients Sample.db)))).
Defined.

(** ** The local day *)

(** X23: in a zone whose offset never changes the request falls within
    the day the filter of [POST /ai-performance] is built for, and that day
    has 86 400 000 milliseconds. *)
Theorem local_day_fixed_zone (c : Date.clock) (offset : Z) :
  Date.timeZone c = Date.fixed offset ->
  Date.startOfDay c <= Date.now c <= Date.endOfDay c
  /\ Date.endOfDay c = Date.startOfDay c + Date.msPerDay - 1.
Proof.
  intros Hzone. unfold Date.startOfDay, Date.endOfDay, Date.utc, Date.localTime.
  rewrite Hzone. cbn [Date.fixed Date.offsetAt Date.offsetOf]. unfold Date.msPerDay.
  Z.div_mod_to_equations. lia.
Qed.

Lemma local_day_fixed_zone_witness :
  Date.startOfDay Sample.eastNight <= Date.now Sample.eastNight
  <= Date.endOfDay Sample.eastNight.
Proof.
  apply (local_day_fixed_zone Sample.eastNight (2 * 3600000) eq_refl).
Defined.

(** On the day the clocks go forward the local day is an hour short: its
    first millisecond is read with the offset before the change and its
    last with the offset after. *)
Example spring_forward_day :
  Date.startOfDay Clinic.springForward = 1711839600000
  /\ Date.endOfDay Clinic.springForward = 1711922399999
  /\ Date.endOfDay Clinic.springForward - Date.startOfDay Clinic.springForward + 1
     = 23 * 3600000.
Proof. vm_compute. repeat split. Qed.
